(** * zipline/data/bundles/sqldata.py: the market-data adapter

    A shallow embedding of the five query operations of [sqldata.py] and of
    [get_exchange], together with the parts of their collaborators that
    decide what they return: the tables and the session scope of the backing
    store, the grouped queries, and the [pandas] operations [from_records],
    column assignment, [Series.map] and the left [merge]. *)

From Stdlib Require Import ZArith List String Ascii Bool Lia QArith DecimalString.
From Stdlib Require Import Permutation.
Import ListNotations.

Set Implicit Arguments.

(** ** Python values: dates and exceptions *)

Module Py.

(** A [datetime.date], as its proleptic Gregorian ordinal
    ([date.toordinal()]): [date(1,1,1)] is 1, [date.max] is [MAXORDINAL]. *)
Definition date := Z.

Definition MAXORDINAL : Z := 3652059.

(** A [pd.Timestamp] (or a [datetime.datetime]): a calendar day and the
    time since its midnight in nanoseconds. *)
Record Timestamp := { ts_ordinal : Z; ts_nanos : Z }.

(** [date(1970, 1, 1).toordinal()] *)
Definition EPOCH : Z := 719163.

Definition DAY_NS : Z := 86400000000000.

(** [Timestamp.max.value]; [Timestamp.min.value] is its opposite. *)
Definition TIMESTAMP_MAX : Z := 9223372036854775807.

(** The nanoseconds since the epoch that a [pd.Timestamp] holds. *)
Definition Timestamp_value (t : Timestamp) : Z :=
  ((ts_ordinal t - EPOCH) * DAY_NS + ts_nanos t)%Z.

(** A [pd.Timestamp] lies between [Timestamp.min], 1677-09-21 00:12:43.145224193,
    and [Timestamp.max], 2262-04-11 23:47:16.854775807. *)
Definition in_bounds (t : Timestamp) : bool :=
  ((- TIMESTAMP_MAX <=? Timestamp_value t) && (Timestamp_value t <=? TIMESTAMP_MAX))%Z%bool.

(** What callers pass as [start] and [end]. *)
Inductive datelike :=
| dl_str (s : string)          (* '2018-4-1' *)
| dl_Timestamp (t : Timestamp) (* pd.Timestamp('2018-4-16'), a datetime *)
| dl_date (d : date)           (* a datetime.date *)
| dl_None.                     (* None, which pd.Timestamp turns into NaT *)

Inductive exn :=
| ValueError_length_mismatch (old new : nat)
    (* Length mismatch: Expected axis has [old] elements,
       new values have [new] elements *)
| ValueError_datetime (s : string) (* the string is not a date *)
| OutOfBoundsDatetime             (* Out of bounds nanosecond timestamp *)
| StatementError                  (* sqlalchemy: a parameter cannot be bound *)
| IndexError                      (* string index out of range *)
| KeyError (k : string)
| TypeError
| OverflowError.                  (* date value out of range *)

Definition result (A : Type) := (exn + A)%type.

Definition ok {A} (a : A) : result A := inr a.
Definition raise {A} (e : exn) : result A := inl e.

Definition rbind {A B} (r : result A) (k : A -> result B) : result B :=
  match r with
  | inl e => inl e
  | inr a => k a
  end.

(** [[f x for x in xs]], stopping at the first exception. *)
Fixpoint traverse {A B} (f : A -> result B) (xs : list A) : result (list B) :=
  match xs with
  | [] => ok []
  | x :: xs' =>
      rbind (f x) (fun y => rbind (traverse f xs') (fun ys => ok (y :: ys)))
  end.

(** [x + timedelta(days=1)] on a date. *)
Definition date_add_day (d : date) : result date :=
  if (d + 1 <=? MAXORDINAL)%Z then ok (d + 1)%Z else raise OverflowError.

End Py.
Import Py.

(** ** pandas: the part of [DataFrame] the adapter uses *)

Module Pd.

(** A column label: the position that [from_records] gives a column of a
    list of tuples, or the name assigned afterwards. *)
Inductive label :=
| L_pos (n : nat)
| L_name (s : string).

Definition label_eqb (a b : label) : bool :=
  match a, b with
  | L_pos n, L_pos m => Nat.eqb n m
  | L_name s, L_name t => String.eqb s t
  | _, _ => false
  end.

Inductive cell :=
| c_str (s : string)
| c_date (d : date)
| c_num (q : Q)
| c_null.          (* None / NaN / NaT *)

(** Equality of join keys; missing keys match each other, as in [merge]. *)
Definition cell_eqb (a b : cell) : bool :=
  match a, b with
  | c_str s, c_str t => String.eqb s t
  | c_date d, c_date e => Z.eqb d e
  | c_num p, c_num q => Qeq_bool p q
  | c_null, c_null => true
  | _, _ => false
  end.

Definition of_str (o : option string) : cell :=
  match o with Some s => c_str s | None => c_null end.
Definition of_date (o : option date) : cell :=
  match o with Some d => c_date d | None => c_null end.
Definition of_num (o : option Q) : cell :=
  match o with Some q => c_num q | None => c_null end.

(** Rows are kept as the tuples they came from; the row index is always
    the default [RangeIndex] and is not represented. *)
Record DataFrame := { columns : list label; records : list (list cell) }.

(** [df.empty] *)
Definition empty (df : DataFrame) : bool :=
  match columns df, records df with
  | [], _ => true
  | _, [] => true
  | _, _ => false
  end.

(** [pd.DataFrame.from_records(rows)] on a list of tuples: no rows give a
    frame with no columns at all; otherwise the columns are numbered after
    the first tuple. *)
Definition from_records (rows : list (list cell)) : DataFrame :=
  match rows with
  | [] => {| columns := []; records := [] |}
  | r :: _ => {| columns := map L_pos (seq 0 (List.length r)); records := rows |}
  end.

(** [df.columns = names] *)
Definition set_columns (df : DataFrame) (names : list string) : result DataFrame :=
  if Nat.eqb (List.length (columns df)) (List.length names)
  then ok {| columns := map L_name names; records := records df |}
  else raise (ValueError_length_mismatch (List.length (columns df)) (List.length names)).

Fixpoint index_of (l : label) (ls : list label) : option nat :=
  match ls with
  | [] => None
  | x :: ls' => if label_eqb l x then Some 0%nat else option_map S (index_of l ls')
  end.

(** The cell of a row under a named column. *)
Definition cell_of (df : DataFrame) (row : list cell) (name : string) : option cell :=
  match index_of (L_name name) (columns df) with
  | Some i => nth_error row i
  | None => None
  end.

(** [df[name]] as the list of its values. *)
Definition get_column (df : DataFrame) (name : string) : result (list cell) :=
  match index_of (L_name name) (columns df) with
  | Some i => ok (map (fun r => nth i r c_null) (records df))
  | None => raise (KeyError name)
  end.

(** [series.map(f)] *)
Definition series_map (f : cell -> result cell) (s : list cell) : result (list cell) :=
  traverse f s.

Fixpoint set_nth {A} (i : nat) (v : A) (l : list A) : list A :=
  match i, l with
  | _, [] => []
  | O, _ :: l' => v :: l'
  | S i', x :: l' => x :: set_nth i' v l'
  end.

(** [df[name] = values], for values produced from a column of [df] (one
    per row): an existing column is overwritten in place, a new one is
    appended on the right. *)
Definition set_column (df : DataFrame) (name : string) (values : list cell) : DataFrame :=
  match index_of (L_name name) (columns df) with
  | Some i =>
      {| columns := columns df;
         records := map (fun rv => set_nth i (snd rv) (fst rv)) (combine (records df) values) |}
  | None =>
      {| columns := columns df ++ [L_name name];
         records := map (fun rv => fst rv ++ [snd rv]) (combine (records df) values) |}
  end.

Definition remove_nth {A} (i : nat) (l : list A) : list A :=
  firstn i l ++ skipn (S i) l.

Definition label_in (l : label) (ls : list label) : bool :=
  existsb (label_eqb l) ls.

(** ['{}{}'.format(label, suffix)] *)
Definition suffixed (l : label) (sfx : string) : label :=
  match l with
  | L_name s => L_name (s ++ sfx)
  | L_pos n => L_name (NilEmpty.string_of_uint (Nat.to_uint n) ++ sfx)
  end.

(** [left.merge(right, 'left', on=on)]: every row of [left], in order,
    once per row of [right] with the same key, and once with missing
    values when there is none.  The key column is kept once; a label that
    both frames carry outside the key gets the default suffixes. *)
Definition merge_left (left right : DataFrame) (on : string) : result DataFrame :=
  match index_of (L_name on) (columns left), index_of (L_name on) (columns right) with
  | Some i, Some j =>
      let lrest := remove_nth i (columns left) in
      let rrest := remove_nth j (columns right) in
      let lcols :=
        map (fun c => if (negb (label_eqb c (L_name on)) && label_in c rrest)%bool
                      then suffixed c "_x" else c) (columns left) in
      let rcols :=
        map (fun c => if label_in c lrest then suffixed c "_y" else c) rrest in
      ok {| columns := lcols ++ rcols;
            records :=
              flat_map
                (fun l =>
                   match filter (fun r => cell_eqb (nth i l c_null) (nth j r c_null))
                                (records right) with
                   | [] => [l ++ repeat c_null (List.length rrest)]
                   | ms => map (fun r => l ++ remove_nth j r) ms
                   end)
                (records left) |}
  | _, _ => raise (KeyError on)
  end.

End Pd.
Import Pd.

(** ** get_exchange *)

Definition get_exchange (code : string) : result string :=
  match code with
  | EmptyString => raise IndexError
  | String c _ =>
      if (Ascii.eqb c "0" || Ascii.eqb c "3")%bool
      then ok "SZSE"%string
      else ok "SSE"%string
  end.

(** ** The backing store (cswd.sql) *)

Module Db.

(** Modelled from the spec: the enumeration [SpecialTreatmentType] is
    declared in [cswd.sql.models]; the adapter names two of its members
    and the other kinds are ignored for its purpose. *)
Inductive SpecialTreatmentType :=
| delisting
| PT
| other_treatment (n : nat).

(** The mapped columns the adapter reads.  [code] and [date] are the key
    columns of their tables and are never NULL; every other column may
    be. *)
Record Issue := {
  Issue_code : string;
  Issue_A004 : option date          (* A004_上市日期, listing date *)
}.

Record SpecialTreatment := {
  ST_code : string;
  ST_date : date;
  ST_treatment : SpecialTreatmentType
}.

Record StockDaily := {
  SD_code : string;
  SD_date : date;
  SD_A001 : option string;          (* A001_名称, display name *)
  SD_A002 : option Q;               (* A002_开盘价, open *)
  SD_A003 : option Q;               (* A003_最高价, high *)
  SD_A004 : option Q;               (* A004_最低价, low *)
  SD_A005 : option Q;               (* A005_收盘价, close *)
  SD_A006 : option Q;               (* A006_成交量, volume *)
  SD_A007 : option Q;               (* A007_成交金额, amount *)
  SD_A008 : option Q;               (* A008_换手率, turnover *)
  SD_A009 : option Q;               (* A009_前收盘, previous close *)
  SD_A011 : option Q;               (* A011_涨跌幅, percent change *)
  SD_A012 : option Q;               (* A012_总市值, total market value *)
  SD_A013 : option Q                (* A013_流通市值, circulating market value *)
}.

Record Adjustment := {
  ADJ_code : string;
  ADJ_date : date;
  ADJ_A002 : option Q;              (* A002_派息, cash per share *)
  ADJ_A003 : option Q;              (* A003_送股, share ratio *)
  ADJ_A004 : option date;           (* A004_股权登记日, record date *)
  ADJ_A005 : option date;           (* A005_除权基准日, pay date *)
  ADJ_A006 : option date            (* A006_红股上市日, listing date of new shares *)
}.

Record Tables := {
  Issue_rows : list Issue;
  SpecialTreatment_rows : list SpecialTreatment;
  StockDaily_rows : list StockDaily;
  Adjustment_rows : list Adjustment
}.

(** Two of the grouped queries read a column that is neither grouped nor
    aggregated ([treatment] in the HAVING clause of [get_end_dates], the
    display name in [gen_asset_metadata]).  An engine that runs such a
    query evaluates the column on one row of each group, and which one is
    the engine's choice: it is given here as a position in the group, the
    group's first row standing in for a position outside it.  (An engine
    that rejects such a query makes both operations fail on every store
    and is not modelled.) *)
Record Engine := {
  having_row : list SpecialTreatment -> nat;
  select_row : list StockDaily -> nat
}.

Definition bare_row {A} (g : list A) (i : nat) : option A :=
  match nth_error g i with
  | Some r => Some r
  | None => hd_error g
  end.

Record Backend := { engine : Engine; tables : Tables }.

(** Rows in the order of a key, rows of equal keys in their given order. *)
Fixpoint insert_by {A} (leb : A -> A -> bool) (x : A) (l : list A) : list A :=
  match l with
  | [] => [x]
  | y :: l' => if leb x y then x :: y :: l' else y :: insert_by leb x l'
  end.

Definition sort_by {A} (leb : A -> A -> bool) (l : list A) : list A :=
  fold_right (insert_by leb) [] l.

(** The distinct codes of a table, in the order of the codes (the engine
    walks the rows by their key, or sorts them, to form the groups). *)
Definition distinct_codes {A} (key : A -> string) (rows : list A) : list string :=
  sort_by String.leb (nodup string_dec (map key rows)).

(** [GROUP BY code]: one group per distinct code, holding the rows of
    that code in table order; the groups come in the order of the codes. *)
Definition group_by {A} (key : A -> string) (rows : list A) : list (string * list A) :=
  map (fun k => (k, filter (fun r => String.eqb (key r) k) rows))
      (distinct_codes key rows).

(** [func.min] and [func.max] over a group: NULL over no rows. *)
Definition agg (f : Z -> Z -> Z) (ds : list date) : option date :=
  match ds with
  | [] => None
  | d :: ds' => Some (fold_left f ds' d)
  end.
Definition func_min := agg Z.min.
Definition func_max := agg Z.max.

(** [column BETWEEN lo AND hi] *)
Definition between (d lo hi : date) : bool :=
  ((lo <=? d) && (d <=? hi))%Z%bool.

End Db.
Import Db.

(** ** Sessions: what a call does to the backing store

    A computation reads the backing store and extends the log of what
    happened to its sessions; it ends with a value or with an exception. *)

Module Session.

Inductive table := T_Issue | T_SpecialTreatment | T_StockDaily | T_Adjustment.

Inductive event :=
| Acquire              (* a session is opened *)
| Select (t : table)   (* query.all() *)
| Commit
| Rollback
| Release.             (* session.close() *)

Definition M (A : Type) : Type := Backend -> list event -> result A * list event.

Definition ret {A} (a : A) : M A := fun _ tr => (ok a, tr).

Definition bind {A B} (m : M A) (k : A -> M B) : M B :=
  fun b tr =>
    match m b tr with
    | (inl e, tr') => (inl e, tr')
    | (inr a, tr') => k a b tr'
    end.

(** A computation that touches no session. *)
Definition lift {A} (r : result A) : M A := fun _ tr => (r, tr).

(** [query.all()] inside a session. *)
Definition all {A} (t : table) (q : Backend -> list A) : M (list A) :=
  fun b tr => (ok (q b), tr ++ [Select t]).

(** [query.all()] for a statement with two date parameters: a parameter
    that is no date ([NaT]) cannot be bound, and the statement fails before
    it is sent. *)
Definition all_between {A} (t : table) (lo hi : option date)
           (q : date -> date -> Backend -> list A) : M (list A) :=
  match lo, hi with
  | Some lo, Some hi => all t (q lo hi)
  | _, _ => lift (raise StatementError)
  end.

(** Modelled from the spec: [cswd.sql.base.session_scope] is not part of
    this module.  The session is acquired on entry and released on every
    exit path, committing when the body returns and rolling back when it
    raises; the exception of the body propagates. *)
Definition session_scope {A} (body : M A) : M A :=
  fun b tr =>
    match body b (tr ++ [Acquire]) with
    | (inr a, tr') => (inr a, tr' ++ [Commit; Release])
    | (inl e, tr') => (inl e, tr' ++ [Rollback; Release])
    end.

(** The value or exception of a call on a backing store. *)
Definition returns {A} (m : M A) (b : Backend) : result A := fst (m b []).

(** The session log of a call. *)
Definition log {A} (m : M A) (b : Backend) : list event := snd (m b []).

End Session.
Import Session.

Declare Scope py_scope.
Delimit Scope py_scope with py.
Notation "x <- m ;; k" := (bind m (fun x => k))
  (at level 61, m at next level, right associativity) : py_scope.
Open Scope py_scope.
Open Scope string_scope.
Open Scope list_scope.

(** ** sqldata.py *)

Definition DAILY_COLS : list string :=
  ["symbol"; "date";
   "open"; "high"; "low"; "close";
   "prev_close"; "change_pct";
   "volume"; "amount"; "turnover"; "cmv"; "tmv"].

Definition ADJUSTMENT_COLS : list string :=
  ["symbol"; "date"; "amount"; "ratio";
   "record_date"; "pay_date"; "listing_date"].

(** [column.isnot(None)] *)
Definition isnot_None {A} (o : option A) : bool :=
  match o with Some _ => true | None => false end.

(** [sess.query(Issue.code, Issue.A004).filter(Issue.A004.isnot(None))] *)
Definition start_dates_query (b : Backend) : list (list cell) :=
  map (fun r => [c_str (Issue_code r); of_date (Issue_A004 r)])
      (filter (fun r => isnot_None (Issue_A004 r)) (Issue_rows (tables b))).

Definition get_start_dates : M DataFrame :=
  let col_names := ["symbol"; "start_date"] in
  session_scope (
    rows <- all T_Issue start_dates_query ;;
    let df := from_records rows in
    df <- lift (set_columns df col_names) ;;
    ret df).

(** [treatment.in_([delisting, PT])] *)
Definition in_end_kinds (t : SpecialTreatmentType) : bool :=
  match t with
  | delisting | PT => true
  | other_treatment _ => false
  end.

(** The HAVING clause, on the row the engine reads [treatment] from. *)
Definition having_end_kind (e : Engine) (g : list SpecialTreatment) : bool :=
  match bare_row g (having_row e g) with
  | Some r => in_end_kinds (ST_treatment r)
  | None => false
  end.

(** [sess.query(code, func.max(date)).group_by(code).having(treatment.in_(...))] *)
Definition end_dates_query (b : Backend) : list (list cell) :=
  map (fun kg => [c_str (fst kg); of_date (func_max (map ST_date (snd kg)))])
      (filter (fun kg => having_end_kind (engine b) (snd kg))
              (group_by ST_code (SpecialTreatment_rows (tables b)))).

Definition get_end_dates : M DataFrame :=
  let col_names := ["symbol"; "end_date"] in
  session_scope (
    rows <- all T_SpecialTreatment end_dates_query ;;
    let df := from_records rows in
    df <- lift (set_columns df col_names) ;;
    ret df).

(** [sess.query(code, A001, func.min(date), func.max(date)).group_by(code)] *)
Definition asset_query (b : Backend) : list (list cell) :=
  map (fun kg =>
         let g := snd kg in
         [c_str (fst kg);
          of_str (match bare_row g (select_row (engine b) g) with
                  | Some r => SD_A001 r
                  | None => None
                  end);
          of_date (func_min (map SD_date g));
          of_date (func_max (map SD_date g))])
      (group_by SD_code (StockDaily_rows (tables b))).

(** [get_exchange] on a value of the symbol column. *)
Definition map_get_exchange (x : cell) : result cell :=
  match x with
  | c_str code => rbind (get_exchange code) (fun e => ok (c_str e))
  | _ => raise TypeError
  end.

(** [lambda x: x + pd.Timedelta(days=1)] *)
Definition add_one_day (x : cell) : result cell :=
  match x with
  | c_date d => rbind (date_add_day d) (fun d' => ok (c_date d'))
  | _ => raise TypeError
  end.

Definition gen_asset_metadata : M DataFrame :=
  let columns := ["symbol"; "asset_name"; "first_traded"; "last_traded"] in
  session_scope (
    rows <- all T_StockDaily asset_query ;;
    let df := from_records rows in
    df <- lift (set_columns df columns) ;;
    symbol <- lift (get_column df "symbol") ;;
    exchange <- lift (series_map map_get_exchange symbol) ;;
    let df := set_column df "exchange" exchange in
    last_traded <- lift (get_column df "last_traded") ;;
    auto_close_date <- lift (series_map add_one_day last_traded) ;;
    let df := set_column df "auto_close_date" auto_close_date in
    start_dates <- get_start_dates ;;
    end_dates <- get_end_dates ;;
    merged <- lift (merge_left df start_dates "symbol") ;;
    lift (merge_left merged end_dates "symbol")).

Section Fetch.

(** How [pd.Timestamp] reads a string (dateutil's parser): [None] when
    the string is not a date, [Some None] when it reads as [NaT] (the empty
    string, 'NaT'), and otherwise the date and time written. *)
Variable parse_datetime : string -> option (option Timestamp).

(** A date and time becomes a [pd.Timestamp] when it lies in its bounds. *)
Definition checked (t : Timestamp) : result (option Timestamp) :=
  if in_bounds t then ok (Some t) else raise OutOfBoundsDatetime.

(** [pd.Timestamp(x)]; [None] is [NaT]. *)
Definition pd_Timestamp (x : datelike) : result (option Timestamp) :=
  match x with
  | dl_str s =>
      match parse_datetime s with
      | Some (Some t) => checked t
      | Some None => ok None
      | None => raise (ValueError_datetime s)
      end
  | dl_Timestamp t => checked t
  | dl_date d => checked {| ts_ordinal := d; ts_nanos := 0 |}
  | dl_None => ok None
  end.

(** [t.date()]: the calendar day the instant falls on, the time of day
    dropped; [NaT.date()] is [NaT]. *)
Definition Timestamp_date (t : option Timestamp) : option date :=
  match t with
  | Some t => Some (ts_ordinal t + ts_nanos t / DAY_NS)%Z
  | None => None
  end.

(** [pd.Timestamp(x).date()] *)
Definition to_date (x : datelike) : result (option date) :=
  rbind (pd_Timestamp x) (fun t => ok (Timestamp_date t)).

Definition daily_tuple (r : StockDaily) : list cell :=
  [c_str (SD_code r); c_date (SD_date r);
   of_num (SD_A002 r); of_num (SD_A003 r); of_num (SD_A004 r); of_num (SD_A005 r);
   of_num (SD_A009 r); of_num (SD_A011 r);
   of_num (SD_A006 r); of_num (SD_A007 r); of_num (SD_A008 r);
   of_num (SD_A013 r); of_num (SD_A012 r)].

(** The rows that pass both filters.  The query has no ORDER BY: the engine
    finds the rows of a code through the key (code, date) and returns them
    in the order of their dates. *)
Definition daily_matching (stock_code : string) (start end_ : date) (b : Backend)
  : list StockDaily :=
  sort_by (fun r r' => (SD_date r <=? SD_date r')%Z)
          (filter (fun r => between (SD_date r) start end_)
                  (filter (fun r => String.eqb (SD_code r) stock_code)
                          (StockDaily_rows (tables b)))).

Definition fetch_single_equity (stock_code : string) (start end_ : datelike)
  : M DataFrame :=
  start <- lift (to_date start) ;;
  end_ <- lift (to_date end_) ;;
  session_scope (
    rows <- all_between T_StockDaily start end_
                (fun start end_ b =>
                   map daily_tuple (daily_matching stock_code start end_ b)) ;;
    let df := from_records rows in
    df <- lift (set_columns df DAILY_COLS) ;;
    ret df).

Definition adjustment_tuple (r : Adjustment) : list cell :=
  [c_str (ADJ_code r); c_date (ADJ_date r);
   of_num (ADJ_A002 r); of_num (ADJ_A003 r);
   of_date (ADJ_A004 r); of_date (ADJ_A005 r); of_date (ADJ_A006 r)].

(** As [daily_matching], on the key (code, date) of Adjustment. *)
Definition adjustment_matching (stock_code : string) (start end_ : date) (b : Backend)
  : list Adjustment :=
  sort_by (fun r r' => (ADJ_date r <=? ADJ_date r')%Z)
          (filter (fun r => between (ADJ_date r) start end_)
                  (filter (fun r => String.eqb (ADJ_code r) stock_code)
                          (Adjustment_rows (tables b)))).

Definition fetch_single_quity_adjustments (stock_code : string) (start end_ : datelike)
  : M DataFrame :=
  start <- lift (to_date start) ;;
  end_ <- lift (to_date end_) ;;
  session_scope (
    rows <- all_between T_Adjustment start end_
                (fun start end_ b =>
                   map adjustment_tuple (adjustment_matching stock_code start end_ b)) ;;
    let df := from_records rows in
    if empty df
    then (* 返回一个空表 *) ret df
    else
      df <- lift (set_columns df ADJUSTMENT_COLS) ;;
      ret df).

End Fetch.

(** ** A calendar, a string reader and an engine to run the adapter on *)

Module Calendar.

Local Open Scope Z_scope.

Definition is_leap (year : Z) : bool :=
  ((year mod 4 =? 0) && (negb (year mod 100 =? 0) || (year mod 400 =? 0)))%bool.

Definition days_before_year (year : Z) : Z :=
  let y := year - 1 in
  y * 365 + y / 4 - y / 100 + y / 400.

Definition days_in_month (year month : Z) : Z :=
  if month =? 2 then (if is_leap year then 29 else 28)
  else if (month =? 4) || (month =? 6) || (month =? 9) || (month =? 11) then 30
  else 31.

Definition days_before_month (year month : Z) : Z :=
  fold_left (fun acc m => acc + days_in_month year m)
            (map Z.of_nat (seq 1 (Z.to_nat (month - 1)))) 0.

(** [date(year, month, day).toordinal()] *)
Definition ymd2ord (year month day : Z) : date :=
  days_before_year year + days_before_month year month + day.

Definition digit (c : ascii) : option Z :=
  let n := Z.of_nat (nat_of_ascii c) in
  if (48 <=? n) && (n <=? 57) then Some (n - 48) else None.

Fixpoint number (acc : Z) (s : string) : option (Z * string) :=
  match s with
  | EmptyString => Some (acc, EmptyString)
  | String c s' =>
      match digit c with
      | Some d => number (acc * 10 + d) s'
      | None => Some (acc, s)
      end
  end.

(** One field of digits, which may not be empty. *)
Definition field (s : string) : option (Z * string) :=
  match s with
  | EmptyString => None
  | String c _ =>
      match digit c with
      | Some _ => number 0 s
      | None => None
      end
  end.

Definition dash (s : string) : option string :=
  match s with
  | String "-"%char s' => Some s'
  | _ => None
  end.

(** The form [year-month-day], midnight of that day. *)
Definition parse_ymd_date (s : string) : option Timestamp :=
  match field s with
  | Some (y, s1) =>
      match dash s1 with
      | Some s2 =>
          match field s2 with
          | Some (m, s3) =>
              match dash s3 with
              | Some s4 =>
                  match field s4 with
                  | Some (d, EmptyString) =>
                      if ((1 <=? y) && (y <=? 9999) && (1 <=? m) && (m <=? 12)
                          && (1 <=? d) && (d <=? days_in_month y m))%bool
                      then Some {| ts_ordinal := ymd2ord y m d; ts_nanos := 0 |}
                      else None
                  | _ => None
                  end
              | None => None
              end
          | None => None
          end
      | None => None
      end
  | None => None
  end.

(** A reader for the form [year-month-day]; the empty string and 'NaT'
    read as [NaT].  It stands for dateutil's parser where a concrete one is
    needed. *)
Definition parse_ymd (s : string) : option (option Timestamp) :=
  match s with
  | EmptyString => Some None
  | _ =>
      if String.eqb s "NaT" then Some None
      else match parse_ymd_date s with
           | Some t => Some (Some t)
           | None => None
           end
  end.

End Calendar.
Import Calendar.

(** The position of the first row of a group that carries its latest date. *)
Fixpoint latest_row (g : list SpecialTreatment) : nat :=
  match g with
  | [] => 0
  | r :: g' =>
      match func_max (map ST_date g') with
      | Some m => if (m <=? ST_date r)%Z then 0 else S (latest_row g')
      | None => 0
      end
  end.

(** The position of the first bar of a group that carries its latest date. *)
Fixpoint latest_bar (g : list StockDaily) : nat :=
  match g with
  | [] => 0
  | r :: g' =>
      match func_max (map SD_date g') with
      | Some m => if (m <=? SD_date r)%Z then 0 else S (latest_bar g')
      | None => 0
      end
  end.

(** An engine with SQLite's rule: the columns that are neither grouped nor
    aggregated come from a row that holds the maximum of [max()], also when
    the query computes a [min()] beside it. *)
Definition sqlite : Engine :=
  {| having_row := latest_row; select_row := latest_bar |}.

(** ** Sample stores *)

Module Sample.

Local Open Scope Q_scope.

(** A daily bar with the columns the docstring of [fetch_single_equity]
    prints; the remaining ones are NULL. *)
Definition bar (code : string) (d : date) (name : string)
           (open high low close prev_close change_pct : Q) : StockDaily :=
  {| SD_code := code; SD_date := d; SD_A001 := Some name;
     SD_A002 := Some open; SD_A003 := Some high; SD_A004 := Some low;
     SD_A005 := Some close; SD_A006 := None; SD_A007 := None; SD_A008 := None;
     SD_A009 := Some prev_close; SD_A011 := Some change_pct;
     SD_A012 := None; SD_A013 := None |}.

Definition issues : list Issue :=
  [ {| Issue_code := "000001"; Issue_A004 := Some (ymd2ord 1991 4 3) |};
    {| Issue_code := "000003"; Issue_A004 := Some (ymd2ord 1991 1 14) |};
    {| Issue_code := "600000"; Issue_A004 := Some (ymd2ord 1999 11 10) |};
    {| Issue_code := "300999"; Issue_A004 := None |} ].

Definition treatments : list SpecialTreatment :=
  [ {| ST_code := "000003"; ST_date := ymd2ord 2001 4 20; ST_treatment := PT |};
    {| ST_code := "000001"; ST_date := ymd2ord 1999 5 5;
       ST_treatment := other_treatment 0 |};
    {| ST_code := "000003"; ST_date := ymd2ord 2002 6 14; ST_treatment := delisting |} ].

Definition bars : list StockDaily :=
  [ bar "000001" (ymd2ord 1991 1 2) "name1" 0.66 0.66 0.66 0.66 0.67 (-1.49);
    bar "000003" (ymd2ord 1991 1 2) "name3" 1.20 1.20 1.20 1.20 1.21 (-0.83);
    bar "000003" (ymd2ord 2002 4 26) "name3" 1.50 1.52 1.47 1.48 1.50 (-1.33);
    bar "000333" (ymd2ord 2018 3 30) "name333" 54.00 54.80 53.60 54.53 54.10 0.7948;
    bar "000333" (ymd2ord 2018 4 2) "name333" 53.30 55.00 52.68 52.84 54.53 (-3.0992);
    bar "000333" (ymd2ord 2018 4 16) "name333" 51.31 51.80 49.15 49.79 51.32 (-2.9813);
    bar "000333" (ymd2ord 2018 4 17) "name333" 49.80 50.50 49.10 49.60 49.79 (-0.3816);
    bar "000001" (ymd2ord 2018 4 17) "name1" 11.40 11.55 11.30 11.35 11.42 (-0.6130);
    bar "600000" (ymd2ord 2018 4 17) "name6" 11.60 11.70 11.50 11.55 11.62 (-0.6024) ].

Definition dividends : list Adjustment :=
  [ {| ADJ_code := "600000"; ADJ_date := ymd2ord 2010 6 10;
       ADJ_A002 := Some 0.150; ADJ_A003 := Some 0.3;
       ADJ_A004 := Some (ymd2ord 2010 6 9); ADJ_A005 := Some (ymd2ord 2010 6 11);
       ADJ_A006 := Some (ymd2ord 2010 6 10) |};
    {| ADJ_code := "000001"; ADJ_date := ymd2ord 2012 10 19;
       ADJ_A002 := Some 0.1; ADJ_A003 := Some 0;
       ADJ_A004 := Some (ymd2ord 2012 10 18); ADJ_A005 := Some (ymd2ord 2012 10 19);
       ADJ_A006 := None |};
    {| ADJ_code := "600000"; ADJ_date := ymd2ord 2011 6 3;
       ADJ_A002 := Some 0.160; ADJ_A003 := Some 0.3;
       ADJ_A004 := Some (ymd2ord 2011 6 2); ADJ_A005 := Some (ymd2ord 2011 6 7);
       ADJ_A006 := Some (ymd2ord 2011 6 3) |} ].

(** A store on which every query of the adapter has rows. *)
Definition market : Backend :=
  {| engine := sqlite;
     tables := {| Issue_rows := issues; SpecialTreatment_rows := treatments;
                  StockDaily_rows := bars; Adjustment_rows := dividends |} |}.

(** A market none of whose stocks was ever suspended or delisted. *)
Definition young_market : Backend :=
  {| engine := sqlite;
     tables := {| Issue_rows := issues; SpecialTreatment_rows := [];
                  StockDaily_rows := bars; Adjustment_rows := dividends |} |}.

(** A store whose Issue table has no listing date yet. *)
Definition unlisted_market : Backend :=
  {| engine := sqlite;
     tables := {| Issue_rows := [ {| Issue_code := "300999"; Issue_A004 := None |} ];
                  SpecialTreatment_rows := treatments;
                  StockDaily_rows := bars; Adjustment_rows := dividends |} |}.

(** "000004" was flagged PT and later resumed normal trading; "000003"
    was delisted. *)
Definition resumed_market : Backend :=
  {| engine := sqlite;
     tables := {| Issue_rows := issues;
                  SpecialTreatment_rows :=
                    treatments ++
                    [ {| ST_code := "000004"; ST_date := ymd2ord 2001 5 9;
                         ST_treatment := PT |};
                      {| ST_code := "000004"; ST_date := ymd2ord 2002 3 1;
                         ST_treatment := other_treatment 1 |} ];
                  StockDaily_rows := bars; Adjustment_rows := dividends |} |}.

(** Two rows of the metadata of [market]. *)
Definition row_600000 : list cell :=
  [c_str "600000"; c_str "name6"; c_date (ymd2ord 2018 4 17); c_date (ymd2ord 2018 4 17);
   c_str "SSE"; c_date (ymd2ord 2018 4 18); c_date (ymd2ord 1999 11 10); c_null].

Definition row_000003 : list cell :=
  [c_str "000003"; c_str "name3"; c_date (ymd2ord 1991 1 2); c_date (ymd2ord 2002 4 26);
   c_str "SZSE"; c_date (ymd2ord 2002 4 27); c_date (ymd2ord 1991 1 14);
   c_date (ymd2ord 2002 6 14)].

(** What [gen_asset_metadata] returns on [market]. *)
Definition market_metadata : DataFrame :=
  Eval vm_compute in
    match returns gen_asset_metadata market with
    | inr df => df
    | inl _ => {| columns := []; records := [] |}
    end.

(** A store without any daily bar. *)
Definition closed_market : Backend :=
  {| engine := sqlite;
     tables := {| Issue_rows := issues; SpecialTreatment_rows := treatments;
                  StockDaily_rows := []; Adjustment_rows := dividends |} |}.

(** A store one of whose bars has an empty symbol. *)
Definition blank_symbol_market : Backend :=
  {| engine := sqlite;
     tables := {| Issue_rows := issues; SpecialTreatment_rows := treatments;
                  StockDaily_rows :=
                    bars ++ [bar EmptyString (ymd2ord 2018 4 17) "blank" 1 1 1 1 1 0];
                  Adjustment_rows := dividends |} |}.

(** A store one of whose bars is dated [date.max]. *)
Definition sentinel_market : Backend :=
  {| engine := sqlite;
     tables := {| Issue_rows := issues; SpecialTreatment_rows := treatments;
                  StockDaily_rows :=
                    bars ++ [bar "600000" MAXORDINAL "name6" 1 1 1 1 1 0];
                  Adjustment_rows := dividends |} |}.

End Sample.

(** ** Auxiliary definitions for the statements *)

(** The shape four of the five operations share: one query in one session,
    its rows renamed. *)
Definition scoped_query (t : table) (q : Backend -> list (list cell)) (names : list string)
  : M DataFrame :=
  session_scope (
    rows <- all t q ;;
    let df := from_records rows in
    df <- lift (set_columns df names) ;;
    ret df).

(** The special-treatment events of a symbol in table order: its group. *)
Definition events_of (b : Backend) (s : string) : list SpecialTreatment :=
  filter (fun r => String.eqb (ST_code r) s) (SpecialTreatment_rows (tables b)).

(** [d] is the latest date among the events of [s]. *)
Definition latest_event_date (b : Backend) (s : string) (d : date) : Prop :=
  (exists r, In r (SpecialTreatment_rows (tables b)) /\ ST_code r = s /\ ST_date r = d) /\
  (forall r, In r (SpecialTreatment_rows (tables b)) -> ST_code r = s -> (ST_date r <= d)%Z).

(** Some event of [s] is a delisting or a PT flag. *)
Definition has_end_event (b : Backend) (s : string) : Prop :=
  exists r, In r (SpecialTreatment_rows (tables b)) /\ ST_code r = s /\
            in_end_kinds (ST_treatment r) = true.

(** The result of [get_end_dates] as the specification words it: the
    symbols with at least one delisting or PT event, each with the latest
    date of its group. *)
Definition end_dates_as_specified (b : Backend) (df : DataFrame) : Prop :=
  forall s d, In [c_str s; c_date d] (records df) <->
              has_end_event b s /\ latest_event_date b s d.

(** The group of [s] passes the HAVING clause: the row of the group on
    which the engine reads [treatment] is a delisting or a PT flag. *)
Definition passes_having (b : Backend) (s : string) : Prop :=
  having_end_kind (engine b) (events_of b s) = true.

(** The daily bars of a symbol in table order: its group. *)
Definition bars_of (b : Backend) (s : string) : list StockDaily :=
  filter (fun r => String.eqb (SD_code r) s) (StockDaily_rows (tables b)).

(** The six columns [gen_asset_metadata] holds for a symbol before the two
    joins. *)
Definition asset_row (b : Backend) (code : string) (row : list cell) : Prop :=
  exists name first last e,
    row = [c_str code; name; c_date first; c_date last; c_str e; c_date (last + 1)%Z] /\
    bars_of b code <> [] /\
    func_min (map SD_date (bars_of b code)) = Some first /\
    func_max (map SD_date (bars_of b code)) = Some last /\
    get_exchange code = ok e.

(** The start_date of a symbol after the left join with [get_start_dates]:
    a listing date of the symbol in Issue, and missing when it has none. *)
Definition start_cell (b : Backend) (code : string) (x : cell) : Prop :=
  (x = c_null /\
   forall r, In r (Issue_rows (tables b)) -> Issue_code r = code -> Issue_A004 r = None) \/
  (exists d, x = c_date d /\
             exists r, In r (Issue_rows (tables b)) /\ Issue_code r = code /\
                       Issue_A004 r = Some d).

(** The end_date of a symbol after the left join with [get_end_dates]. *)
Definition end_cell (b : Backend) (code : string) (y : cell) : Prop :=
  (y = c_null /\ ~ passes_having b code) \/
  (exists d, y = c_date d /\ passes_having b code /\ latest_event_date b code d).

Definition METADATA_COLS : list string :=
  ["symbol"; "asset_name"; "first_traded"; "last_traded";
   "exchange"; "auto_close_date"; "start_date"; "end_date"].

(** A row of the result of [gen_asset_metadata]. *)
Definition metadata_row (b : Backend) (row : list cell) : Prop :=
  exists code l x y,
    asset_row b code l /\ row = l ++ [x; y] /\ start_cell b code x /\ end_cell b code y.

(** A row whose first cell is a symbol. *)
Definition keyed (l : list cell) : Prop := exists code rest, l = c_str code :: rest.

(** The rows of [left.merge(right, 'left', on=...)] when the key is the
    first column of both frames and [right] has one more column. *)
Definition joined (R lrows : list (list cell)) : list (list cell) :=
  flat_map (fun l =>
              match filter (fun r => cell_eqb (nth 0 l c_null) (nth 0 r c_null)) R with
              | [] => [l ++ [c_null]]
              | ms => map (fun r => l ++ remove_nth 0 r) ms
              end) lrows.

(** ** Reasoning about calls *)

Unset Implicit Arguments.

(** *** Ordered rows *)

Lemma insert_by_Permutation A (leb : A -> A -> bool) x l :
  Permutation (insert_by leb x l) (x :: l).
Proof.
  induction l as [| y l IH]; cbn; [apply Permutation_refl |].
  destruct (leb x y); [apply Permutation_refl |].
  apply Permutation_trans with (y :: x :: l); [| apply perm_swap].
  apply perm_skip. exact IH.
Qed.

Lemma sort_by_Permutation A (leb : A -> A -> bool) l : Permutation (sort_by leb l) l.
Proof.
  induction l as [| x l IH]; cbn; [apply perm_nil |].
  apply Permutation_trans with (x :: sort_by leb l); [apply insert_by_Permutation |].
  apply perm_skip. exact IH.
Qed.

Lemma sort_by_In A (leb : A -> A -> bool) l x : In x (sort_by leb l) <-> In x l.
Proof.
  split; apply Permutation_in;
    [apply sort_by_Permutation | apply Permutation_sym, sort_by_Permutation].
Qed.

Lemma sort_by_length A (leb : A -> A -> bool) l :
  List.length (sort_by leb l) = List.length l.
Proof. apply Permutation_length, sort_by_Permutation. Qed.

Lemma distinct_codes_In A (key : A -> string) rows k :
  In k (distinct_codes key rows) <-> In k (map key rows).
Proof. unfold distinct_codes. rewrite sort_by_In. apply nodup_In. Qed.

Lemma distinct_codes_NoDup A (key : A -> string) rows : NoDup (distinct_codes key rows).
Proof.
  unfold distinct_codes.
  apply (Permutation_NoDup (Permutation_sym (sort_by_Permutation _ String.leb _))).
  apply NoDup_nodup.
Qed.

Lemma bind_inr A B (m : M A) (k : A -> M B) b tr x tr' :
  bind m k b tr = (inr x, tr') ->
  exists a tr1, m b tr = (inr a, tr1) /\ k a b tr1 = (inr x, tr').
Proof.
  unfold bind. destruct (m b tr) as [[e | a] tr1]; intro H.
  - discriminate.
  - exists a, tr1. split; [reflexivity | exact H].
Qed.

Lemma lift_inr A (r : result A) b tr x tr' :
  lift r b tr = (inr x, tr') -> r = inr x /\ tr' = tr.
Proof. unfold lift. intro H. inversion H. split; reflexivity. Qed.

Lemma session_scope_inr A (body : M A) b tr x tr' :
  session_scope body b tr = (inr x, tr') ->
  exists tr1, body b (tr ++ [Acquire]) = (inr x, tr1) /\ tr' = tr1 ++ [Commit; Release].
Proof.
  unfold session_scope. destruct (body b (tr ++ [Acquire])) as [[e | a] tr1]; intro H.
  - discriminate.
  - inversion H. subst. exists tr1. split; reflexivity.
Qed.

(** One step of a call that went well: the value of the step and what is
    left of the call. *)
Ltac invert_bind H a Ha :=
  let t := fresh "t" in
  apply bind_inr in H; destruct H as [a [t [Ha H]]];
  try (apply lift_inr in Ha; destruct Ha as [Ha ->]).

Lemma returns_inr A (m : M A) b x :
  returns m b = inr x -> exists tr, m b [] = (inr x, tr).
Proof.
  unfold returns. destruct (m b []) as [r tr]. simpl. intros ->. exists tr. reflexivity.
Qed.

Lemma length_positions n : List.length (map L_pos (seq 0 n)) = n.
Proof. rewrite length_map. apply length_seq. Qed.

Lemma scoped_query_run t q names b tr :
  (forall r, In r (q b) -> List.length r = List.length names) ->
  names <> [] ->
  scoped_query t q names b tr =
  match q b with
  | [] => (inl (ValueError_length_mismatch 0 (List.length names)),
           tr ++ [Acquire; Select t; Rollback; Release])
  | _ :: _ => (inr {| columns := map L_name names; records := q b |},
               tr ++ [Acquire; Select t; Commit; Release])
  end.
Proof.
  intros Hlen Hnames.
  unfold scoped_query, session_scope, bind, all, lift, ret, from_records, set_columns, ok, raise.
  destruct (q b) as [| r rows] eqn:Hq; cbn [columns records].
  - destruct names as [| n names]; [congruence |].
    cbn. rewrite <- !app_assoc. reflexivity.
  - rewrite length_positions, (Hlen r (or_introl eq_refl)), Nat.eqb_refl.
    cbn. rewrite <- !app_assoc. reflexivity.
Qed.

Lemma get_start_dates_run b tr :
  get_start_dates b tr =
  match start_dates_query b with
  | [] => (inl (ValueError_length_mismatch 0 2),
           tr ++ [Acquire; Select T_Issue; Rollback; Release])
  | _ :: _ =>
      (inr {| columns := [L_name "symbol"; L_name "start_date"];
              records := start_dates_query b |},
       tr ++ [Acquire; Select T_Issue; Commit; Release])
  end.
Proof.
  change get_start_dates with (scoped_query T_Issue start_dates_query ["symbol"; "start_date"]).
  rewrite scoped_query_run; [reflexivity | | discriminate].
  intros r Hr. unfold start_dates_query in Hr.
  apply in_map_iff in Hr. destruct Hr as [x [<- _]]. reflexivity.
Qed.

Lemma get_end_dates_run b tr :
  get_end_dates b tr =
  match end_dates_query b with
  | [] => (inl (ValueError_length_mismatch 0 2),
           tr ++ [Acquire; Select T_SpecialTreatment; Rollback; Release])
  | _ :: _ =>
      (inr {| columns := [L_name "symbol"; L_name "end_date"];
              records := end_dates_query b |},
       tr ++ [Acquire; Select T_SpecialTreatment; Commit; Release])
  end.
Proof.
  change get_end_dates
    with (scoped_query T_SpecialTreatment end_dates_query ["symbol"; "end_date"]).
  rewrite scoped_query_run; [reflexivity | | discriminate].
  intros r Hr. unfold end_dates_query in Hr.
  apply in_map_iff in Hr. destruct Hr as [x [<- _]]. reflexivity.
Qed.

(** The listed pairs are those of the Issue rows with a listing date. *)
Lemma start_dates_query_In b s d :
  In [c_str s; c_date d] (start_dates_query b) <->
  exists r, In r (Issue_rows (tables b)) /\ Issue_code r = s /\ Issue_A004 r = Some d.
Proof.
  unfold start_dates_query. rewrite in_map_iff. split.
  - intros [r [Heq Hin]]. apply filter_In in Hin. destruct Hin as [Hin Hsome].
    destruct (Issue_A004 r) as [d' |] eqn:Hd; [| discriminate].
    cbn in Heq. inversion Heq. subst. exists r. auto.
  - intros [r [Hin [Hs Hd]]]. exists r. split.
    + rewrite Hs, Hd. reflexivity.
    + apply filter_In. split; [exact Hin |]. rewrite Hd. reflexivity.
Qed.

Lemma bind_all A B t (q : Backend -> list A) (k : list A -> M B) b tr :
  bind (all t q) k b tr = k (q b) b (tr ++ [Select t]).
Proof. reflexivity. Qed.

Lemma bind_lift_ok A B (a : A) (k : A -> M B) b tr :
  bind (lift (inr a)) k b tr = k a b tr.
Proof. reflexivity. Qed.

Lemma bind_lift_raise A B (e : exn) (k : A -> M B) b tr :
  bind (lift (inl e)) k b tr = (inl e, tr).
Proof. reflexivity. Qed.

Lemma between_spec d lo hi : between d lo hi = true <-> (lo <= d <= hi)%Z.
Proof. unfold between. rewrite andb_true_iff, !Z.leb_le. reflexivity. Qed.

Lemma daily_matching_In code s e b r :
  In r (daily_matching code s e b) <->
  In r (StockDaily_rows (tables b)) /\ SD_code r = code /\ (s <= SD_date r <= e)%Z.
Proof.
  unfold daily_matching. rewrite sort_by_In, !filter_In, between_spec, String.eqb_eq. tauto.
Qed.

Lemma adjustment_matching_In code s e b r :
  In r (adjustment_matching code s e b) <->
  In r (Adjustment_rows (tables b)) /\ ADJ_code r = code /\ (s <= ADJ_date r <= e)%Z.
Proof.
  unfold adjustment_matching.
  rewrite sort_by_In, !filter_In, between_spec, String.eqb_eq. tauto.
Qed.

Lemma filter_filter_and A (p q : A -> bool) l :
  filter p (filter q l) = filter (fun x => (q x && p x)%bool) l.
Proof.
  induction l as [| x l IH]; [reflexivity |].
  cbn. destruct (q x); cbn; [destruct (p x) |]; rewrite IH; reflexivity.
Qed.

(** The matching rows are the rows of the table that pass the three tests,
    each as often as the table holds it. *)
Lemma daily_matching_Permutation code s e b :
  Permutation (daily_matching code s e b)
              (filter (fun r => (String.eqb (SD_code r) code
                                 && (s <=? SD_date r)%Z && (SD_date r <=? e)%Z)%bool)
                      (StockDaily_rows (tables b))).
Proof.
  unfold daily_matching.
  eapply Permutation_trans; [apply sort_by_Permutation |].
  rewrite filter_filter_and. unfold between.
  erewrite filter_ext; [apply Permutation_refl |].
  intro r. cbv beta. rewrite andb_assoc. reflexivity.
Qed.

Lemma adjustment_matching_Permutation code s e b :
  Permutation (adjustment_matching code s e b)
              (filter (fun r => (String.eqb (ADJ_code r) code
                                 && (s <=? ADJ_date r)%Z && (ADJ_date r <=? e)%Z)%bool)
                      (Adjustment_rows (tables b))).
Proof.
  unfold adjustment_matching.
  eapply Permutation_trans; [apply sort_by_Permutation |].
  rewrite filter_filter_and. unfold between.
  erewrite filter_ext; [apply Permutation_refl |].
  intro r. cbv beta. rewrite andb_assoc. reflexivity.
Qed.

Section FetchFacts.

Variable parse_datetime : string -> option (option Timestamp).

(** What [fetch_single_equity] does once both dates are read. *)
Lemma fetch_single_equity_run code start end_ s e b tr :
  to_date parse_datetime start = inr (Some s) ->
  to_date parse_datetime end_ = inr (Some e) ->
  fetch_single_equity parse_datetime code start end_ b tr =
  match daily_matching code s e b with
  | [] => (inl (ValueError_length_mismatch 0 13),
           tr ++ [Acquire; Select T_StockDaily; Rollback; Release])
  | _ :: _ =>
      (inr {| columns := map L_name DAILY_COLS;
              records := map daily_tuple (daily_matching code s e b) |},
       tr ++ [Acquire; Select T_StockDaily; Commit; Release])
  end.
Proof.
  intros Hs He. unfold fetch_single_equity.
  rewrite Hs, bind_lift_ok, He, bind_lift_ok.
  match goal with
  | |- _ = ?rhs =>
      change (scoped_query T_StockDaily
                (fun b => map daily_tuple (daily_matching code s e b)) DAILY_COLS b tr = rhs)
  end.
  rewrite scoped_query_run.
  - destruct (daily_matching code s e b); reflexivity.
  - intros r Hr. apply in_map_iff in Hr. destruct Hr as [x [<- _]]. reflexivity.
  - discriminate.
Qed.

(** What [fetch_single_quity_adjustments] does once both dates are read. *)
Lemma fetch_single_quity_adjustments_run code start end_ s e b tr :
  to_date parse_datetime start = inr (Some s) ->
  to_date parse_datetime end_ = inr (Some e) ->
  fetch_single_quity_adjustments parse_datetime code start end_ b tr =
  (inr match adjustment_matching code s e b with
       | [] => {| columns := []; records := [] |}
       | _ :: _ =>
           {| columns := map L_name ADJUSTMENT_COLS;
              records := map adjustment_tuple (adjustment_matching code s e b) |}
       end,
   tr ++ [Acquire; Select T_Adjustment; Commit; Release]).
Proof.
  intros Hs He. unfold fetch_single_quity_adjustments.
  rewrite Hs, bind_lift_ok, He, bind_lift_ok.
  unfold session_scope, bind, all_between, all, ok.
  destruct (adjustment_matching code s e b) as [| r rows]; cbn;
    rewrite <- !app_assoc; reflexivity.
Qed.

(** A date that cannot be read stops either call before its session. *)
Lemma unreadable_start code start end_ e b tr :
  to_date parse_datetime start = inl e ->
  fetch_single_equity parse_datetime code start end_ b tr = (inl e, tr) /\
  fetch_single_quity_adjustments parse_datetime code start end_ b tr = (inl e, tr).
Proof.
  intro Hs. unfold fetch_single_equity, fetch_single_quity_adjustments.
  rewrite Hs, !bind_lift_raise. split; reflexivity.
Qed.

Lemma unreadable_end code start end_ s e b tr :
  to_date parse_datetime start = inr s ->
  to_date parse_datetime end_ = inl e ->
  fetch_single_equity parse_datetime code start end_ b tr = (inl e, tr) /\
  fetch_single_quity_adjustments parse_datetime code start end_ b tr = (inl e, tr).
Proof.
  intros Hs He. unfold fetch_single_equity, fetch_single_quity_adjustments.
  rewrite Hs, !bind_lift_ok, He, !bind_lift_raise. split; reflexivity.
Qed.

(** Either call returns a table only when both dates were read as dates. *)
Lemma returned_after_reading_dates code start end_ b df :
  returns (fetch_single_equity parse_datetime code start end_) b = inr df \/
  returns (fetch_single_quity_adjustments parse_datetime code start end_) b = inr df ->
  exists s e,
    to_date parse_datetime start = inr (Some s) /\
    to_date parse_datetime end_ = inr (Some e).
Proof.
  unfold returns, fetch_single_equity, fetch_single_quity_adjustments.
  destruct (to_date parse_datetime start) as [err | [s |]];
    [rewrite !bind_lift_raise; intros [H | H]; discriminate H | |];
    rewrite !bind_lift_ok;
    (destruct (to_date parse_datetime end_) as [err | [e |]];
     [rewrite !bind_lift_raise; intros [H | H]; discriminate H | |]);
    rewrite !bind_lift_ok;
    try (intros [H | H]; discriminate H).
  intros _. exists s, e. split; reflexivity.
Qed.

(** A [datetime.date] inside the bounds of [pd.Timestamp] is read as
    itself. *)
Lemma to_date_of_date d :
  (612412 <= d <= 825914)%Z ->
  to_date parse_datetime (dl_date d) = inr (Some d).
Proof.
  intro Hd. unfold to_date, pd_Timestamp, checked, in_bounds, Timestamp_value.
  cbn [ts_ordinal ts_nanos]. unfold EPOCH, DAY_NS, TIMESTAMP_MAX.
  destruct (andb _ _) eqn:Hb.
  - cbn. rewrite Z.add_0_r. reflexivity.
  - apply andb_false_iff in Hb. rewrite !Z.leb_gt in Hb. lia.
Qed.

End FetchFacts.

(** ** get_exchange *)

(** C9: [get_exchange] indexes the first character without a guard: on a
    symbol with a first character it returns a value, which is one of
    "SZSE" and "SSE"; on the empty string it raises [IndexError] and returns
    nothing. *)
Theorem get_exchange_needs_first_character :
  (forall c rest,
      get_exchange (String c rest) = ok "SZSE" \/ get_exchange (String c rest) = ok "SSE") /\
  get_exchange EmptyString = raise IndexError /\
  (forall code e, get_exchange code = ok e -> code <> EmptyString).
Proof.
  split; [| split].
  - intros c rest. unfold get_exchange.
    destruct (Ascii.eqb c "0" || Ascii.eqb c "3")%bool; [left | right]; reflexivity.
  - reflexivity.
  - intros code e H Hempty. subst code. discriminate H.
Qed.

Lemma get_exchange_needs_first_character_witness :
  get_exchange "600000" = ok "SSE" /\ "600000" <> EmptyString.
Proof.
  split; [reflexivity |].
  apply (proj2 (proj2 get_exchange_needs_first_character) "600000" "SSE"). reflexivity.
Defined.

(** ** get_start_dates *)

Lemma get_start_dates_returns b :
  returns get_start_dates b =
  match start_dates_query b with
  | [] => inl (ValueError_length_mismatch 0 2)
  | _ :: _ => inr {| columns := [L_name "symbol"; L_name "start_date"];
                     records := start_dates_query b |}
  end.
Proof.
  unfold returns. rewrite get_start_dates_run.
  destruct (start_dates_query b); reflexivity.
Qed.

(** C8 (defect of the code): the specification lets [get_start_dates] return an
    empty sequence when no Issue row has a listing date.  On such a store
    the query has no rows, [from_records] builds a frame without columns,
    and naming its two columns raises [ValueError]: nothing is returned. *)
Theorem get_start_dates_raises_without_listing_dates :
  start_dates_query Sample.unlisted_market = [] /\
  returns get_start_dates Sample.unlisted_market = inl (ValueError_length_mismatch 0 2) /\
  log get_start_dates Sample.unlisted_market = [Acquire; Select T_Issue; Rollback; Release].
Proof. repeat split. Qed.

(** ** fetch_single_equity and fetch_single_quity_adjustments *)

Lemma fetch_single_equity_returns parse code start end_ s e b :
  to_date parse start = inr (Some s) ->
  to_date parse end_ = inr (Some e) ->
  returns (fetch_single_equity parse code start end_) b =
  match daily_matching code s e b with
  | [] => inl (ValueError_length_mismatch 0 13)
  | _ :: _ => inr {| columns := map L_name DAILY_COLS;
                     records := map daily_tuple (daily_matching code s e b) |}
  end.
Proof.
  intros Hs He. unfold returns.
  rewrite (fetch_single_equity_run parse code start end_ s e b [] Hs He).
  destruct (daily_matching code s e b); reflexivity.
Qed.

(** Reading a timestamp keeps its day and drops its time of day. *)
Lemma to_date_truncates parse t :
  in_bounds t = true -> (0 <= ts_nanos t < DAY_NS)%Z ->
  to_date parse (dl_Timestamp t) = ok (Some (ts_ordinal t)).
Proof.
  intros H Hday. unfold to_date, pd_Timestamp, checked. rewrite H. cbn.
  rewrite (Z.div_small _ _ Hday), Z.add_0_r. reflexivity.
Qed.

(** C2 (defect of the code): the specification lets [fetch_single_equity] return an
    empty sequence when no DailyBar row matches.  For "000333" in May 2018
    the sample store has no bar: the frame built from no rows has no columns
    and naming the thirteen columns raises [ValueError]. *)
Theorem fetch_single_equity_raises_on_no_match :
  daily_matching "000333" (ymd2ord 2018 5 1) (ymd2ord 2018 5 16) Sample.market = [] /\
  returns (fetch_single_equity parse_ymd "000333" (dl_str "2018-5-1") (dl_str "2018-5-16"))
          Sample.market
  = inl (ValueError_length_mismatch 0 13).
Proof. split; reflexivity. Qed.

(** C5 (defect of the code): the specification lets [fetch_single_equity] return
    exactly the matching rows for every symbol and range.  Both inputs are
    cut to their calendar day, but for a symbol without bars in the range
    the set of matching rows is empty and the call raises [ValueError]
    where the specification has it return that set. *)
Theorem fetch_single_equity_raises_for_unknown_symbol :
  let start := dl_Timestamp {| ts_ordinal := ymd2ord 2018 4 1; ts_nanos := 34200000000000 |} in
  let end_ := dl_date (ymd2ord 2018 4 16) in
  to_date parse_ymd start = ok (Some (ymd2ord 2018 4 1)) /\
  to_date parse_ymd end_ = ok (Some (ymd2ord 2018 4 16)) /\
  daily_matching "999999" (ymd2ord 2018 4 1) (ymd2ord 2018 4 16) Sample.market = [] /\
  returns (fetch_single_equity parse_ymd "999999" start end_) Sample.market
  = inl (ValueError_length_mismatch 0 13).
Proof. repeat split. Qed.

(** C4: once both dates are read as dates, [fetch_single_quity_adjustments]
    returns a table whose rows are, in some order, the rows of Adjustment
    that have the symbol and an ex-date in the inclusive range, once for
    each such row and with the seven selected fields as cells; the table
    has no column at all when no row matches, and otherwise the seven
    columns symbol, date, amount, ratio, record_date, pay_date,
    listing_date in this order. *)
Theorem fetch_single_quity_adjustments_table parse code start end_ s e b :
  to_date parse start = inr (Some s) ->
  to_date parse end_ = inr (Some e) ->
  exists df,
    returns (fetch_single_quity_adjustments parse code start end_) b = inr df /\
    Permutation
      (records df)
      (map (fun r => [c_str (ADJ_code r); c_date (ADJ_date r);
                      of_num (ADJ_A002 r); of_num (ADJ_A003 r);
                      of_date (ADJ_A004 r); of_date (ADJ_A005 r); of_date (ADJ_A006 r)])
           (filter (fun r => (String.eqb (ADJ_code r) code
                              && (s <=? ADJ_date r)%Z && (ADJ_date r <=? e)%Z)%bool)
                   (Adjustment_rows (tables b)))) /\
    (records df = [] -> columns df = []) /\
    (records df <> [] ->
     columns df = [L_name "symbol"; L_name "date"; L_name "amount"; L_name "ratio";
                   L_name "record_date"; L_name "pay_date"; L_name "listing_date"]).
Proof.
  intros Hs He. unfold returns.
  rewrite (fetch_single_quity_adjustments_run parse code start end_ s e b [] Hs He).
  cbn [fst].
  pose proof (Permutation_map adjustment_tuple (adjustment_matching_Permutation code s e b))
    as Hperm.
  destruct (adjustment_matching code s e b) as [| r rs].
  - eexists. split; [reflexivity |]. cbn [records columns].
    split; [exact Hperm | split; [reflexivity | congruence]].
  - eexists. split; [reflexivity |]. cbn [records columns].
    split; [exact Hperm | split; [discriminate | reflexivity]].
Qed.

Lemma fetch_single_quity_adjustments_table_witness :
  to_date parse_ymd (dl_str "2010-4-1") = inr (Some (ymd2ord 2010 4 1)) /\
  to_date parse_ymd (dl_str "2018-4-16") = inr (Some (ymd2ord 2018 4 16)) /\
  exists df,
    returns (fetch_single_quity_adjustments parse_ymd "600000"
               (dl_str "2010-4-1") (dl_str "2018-4-16")) Sample.market = inr df /\
    Permutation
      (records df)
      (map (fun r => [c_str (ADJ_code r); c_date (ADJ_date r);
                      of_num (ADJ_A002 r); of_num (ADJ_A003 r);
                      of_date (ADJ_A004 r); of_date (ADJ_A005 r); of_date (ADJ_A006 r)])
           (filter (fun r => (String.eqb (ADJ_code r) "600000"
                              && (ymd2ord 2010 4 1 <=? ADJ_date r)%Z
                              && (ADJ_date r <=? ymd2ord 2018 4 16)%Z)%bool)
                   (Adjustment_rows (tables Sample.market)))) /\
    (records df = [] -> columns df = []) /\
    (records df <> [] ->
     columns df = [L_name "symbol"; L_name "date"; L_name "amount"; L_name "ratio";
                   L_name "record_date"; L_name "pay_date"; L_name "listing_date"]).
Proof.
  split; [reflexivity | split; [reflexivity |]].
  exact (fetch_single_quity_adjustments_table parse_ymd "600000"
           (dl_str "2010-4-1") (dl_str "2018-4-16") (ymd2ord 2010 4 1) (ymd2ord 2018 4 16)
           Sample.market eq_refl eq_refl).
Defined.

(** C10: both fetch operations read [start] and then [end] before they
    enter the session scope.  When either cannot be read, the error of the
    reading is what the caller gets, whatever the backing store, and the
    session log is left as it was: no session is acquired and no query is
    sent. *)
Theorem dates_are_read_before_the_session parse code start end_ e :
  to_date parse start = inl e \/
  (exists s, to_date parse start = inr s /\ to_date parse end_ = inl e) ->
  forall b tr,
    fetch_single_equity parse code start end_ b tr = (inl e, tr) /\
    fetch_single_quity_adjustments parse code start end_ b tr = (inl e, tr).
Proof.
  intros [Hs | [s [Hs He]]] b tr.
  - apply (unreadable_start parse code start end_ e b tr Hs).
  - apply (unreadable_end parse code start end_ s e b tr Hs He).
Qed.

Lemma dates_are_read_before_the_session_witness :
  to_date parse_ymd (dl_str "2018-4-1") = inr (Some (ymd2ord 2018 4 1)) /\
  to_date parse_ymd (dl_str "mid April") = inl (ValueError_datetime "mid April") /\
  log (fetch_single_equity parse_ymd "000333" (dl_str "2018-4-1") (dl_str "mid April"))
      Sample.market = [] /\
  log (fetch_single_quity_adjustments parse_ymd "000333" (dl_str "2018-4-1")
         (dl_str "mid April")) Sample.market = [].
Proof.
  split; [reflexivity | split; [reflexivity |]].
  assert (H : to_date parse_ymd (dl_str "2018-4-1") = inl (ValueError_datetime "mid April") \/
              (exists s, to_date parse_ymd (dl_str "2018-4-1") = inr s /\
                         to_date parse_ymd (dl_str "mid April")
                         = inl (ValueError_datetime "mid April"))).
  { right. exists (Some (ymd2ord 2018 4 1)). split; reflexivity. }
  destruct (dates_are_read_before_the_session parse_ymd "000333" _ _ _ H Sample.market [])
    as [H1 H2].
  unfold log. rewrite H1, H2. split; reflexivity.
Defined.

(** ** Grouped queries *)

Lemma filter_map_comm A B (f : A -> B) (p : B -> bool) l :
  filter p (map f l) = map f (filter (fun x => p (f x)) l).
Proof.
  induction l as [| x l IH]; [reflexivity |].
  cbn. destruct (p (f x)); cbn; rewrite IH; reflexivity.
Qed.

Lemma fold_left_max_spec ds : forall a,
  let m := fold_left Z.max ds a in
  (m = a \/ In m ds) /\ (a <= m)%Z /\ forall x, In x ds -> (x <= m)%Z.
Proof.
  induction ds as [| d ds IH]; intro a; cbn.
  - split; [left; reflexivity | split; [lia | intros x []]].
  - destruct (IH (Z.max a d)) as [Hin [Hle Hub]].
    split; [| split].
    + destruct Hin as [Heq | Hin]; [| right; right; exact Hin].
      rewrite Heq. destruct (Z.max_spec a d) as [[_ ->] | [_ ->]]; auto.
    + lia.
    + intros x [<- | Hx]; [lia | apply Hub; exact Hx].
Qed.

(** [func.max] is the greatest date of a group. *)
Lemma func_max_spec ds d :
  func_max ds = Some d <-> In d ds /\ forall x, In x ds -> (x <= d)%Z.
Proof.
  unfold func_max, agg. destruct ds as [| a ds].
  - split; [discriminate | intros [[] _]].
  - pose proof (fold_left_max_spec ds a) as H. cbv zeta in H.
    destruct H as [Hin [Hle Hub]]. split.
    + intro Heq. inversion Heq. subst d. split.
      * destruct Hin as [-> | Hin]; [left; reflexivity | right; exact Hin].
      * intros x [<- | Hx]; [exact Hle | apply Hub; exact Hx].
    + intros [Hd Hmax]. f_equal. apply Z.le_antisymm.
      * apply Hmax. destruct Hin as [-> | Hin]; [left; reflexivity | right; exact Hin].
      * destruct Hd as [<- | Hd]; [exact Hle | apply Hub; exact Hd].
Qed.

Lemma bare_row_In A (g : list A) i r : bare_row g i = Some r -> In r g.
Proof.
  unfold bare_row. destruct (nth_error g i) as [x |] eqn:Hnth.
  - intro H. inversion H. subst. eapply nth_error_In. exact Hnth.
  - destruct g as [| x g]; cbn; intro H; inversion H. left. reflexivity.
Qed.

Lemma events_of_In b s r :
  In r (events_of b s) <-> In r (SpecialTreatment_rows (tables b)) /\ ST_code r = s.
Proof. unfold events_of. rewrite filter_In, String.eqb_eq. reflexivity. Qed.

Lemma latest_event_date_max b s d :
  latest_event_date b s d <-> func_max (map ST_date (events_of b s)) = Some d.
Proof.
  rewrite func_max_spec. unfold latest_event_date. split.
  - intros [[r [Hin [Hs Hd]]] Hub]. split.
    + apply in_map_iff. exists r. split; [exact Hd | apply events_of_In; auto].
    + intros x Hx. apply in_map_iff in Hx. destruct Hx as [r' [<- Hr']].
      apply events_of_In in Hr'. destruct Hr' as [Hr' Hs']. apply Hub; assumption.
  - intros [Hd Hub]. split.
    + apply in_map_iff in Hd. destruct Hd as [r [Hd Hr]].
      apply events_of_In in Hr. destruct Hr as [Hr Hs]. exists r. auto.
    + intros r Hr Hs. apply Hub. apply in_map_iff. exists r.
      split; [reflexivity | apply events_of_In; auto].
Qed.

Lemma passes_having_has_end_event b s : passes_having b s -> has_end_event b s.
Proof.
  unfold passes_having, having_end_kind.
  destruct (bare_row (events_of b s) (having_row (engine b) (events_of b s)))
    as [r |] eqn:Hrow; [| discriminate].
  intro Hkind. apply bare_row_In, events_of_In in Hrow. destruct Hrow as [Hin Hs].
  exists r. auto.
Qed.

Lemma latest_row_lt g : g <> [] -> (latest_row g < List.length g)%nat.
Proof.
  induction g as [| a g IH]; [congruence |]. intros _. cbn [latest_row List.length].
  destruct (func_max (map ST_date g)) as [m |] eqn:Hm; [| lia].
  destruct (m <=? ST_date a)%Z; [lia |].
  assert (Hne : g <> []) by (intros ->; discriminate Hm).
  specialize (IH Hne). lia.
Qed.

(** The engine [sqlite] reads [treatment] on a row that carries the latest
    date of the group. *)
Lemma sqlite_reads_latest_event g r :
  bare_row g (having_row sqlite g) = Some r ->
  func_max (map ST_date g) = Some (ST_date r).
Proof.
  change (having_row sqlite g) with (latest_row g).
  revert r. induction g as [| a g IH]; intros r Hr; [discriminate Hr |].
  cbn [latest_row] in Hr. apply func_max_spec.
  destruct (func_max (map ST_date g)) as [m |] eqn:Hm.
  - apply func_max_spec in Hm. destruct Hm as [Hin Hub].
    destruct (m <=? ST_date a)%Z eqn:Hle.
    + apply Z.leb_le in Hle. inversion Hr. subst r. split; [left; reflexivity |].
      intros x [<- | Hx]; [lia | specialize (Hub x Hx); lia].
    + apply Z.leb_gt in Hle.
      assert (Hne : g <> []) by (intros ->; destruct Hin).
      pose proof (latest_row_lt g Hne) as Hlt.
      unfold bare_row in Hr. cbn [nth_error] in Hr.
      destruct (nth_error g (latest_row g)) as [r' |] eqn:Hnth.
      * inversion Hr. subst r'.
        assert (Hg : bare_row g (latest_row g) = Some r)
          by (unfold bare_row; rewrite Hnth; reflexivity).
        specialize (IH r Hg). inversion IH. subst m.
        split; [right; exact Hin |].
        intros x [<- | Hx]; [lia | apply Hub; exact Hx].
      * apply nth_error_None in Hnth. lia.
  - destruct g as [| a' g]; [| discriminate Hm].
    inversion Hr. subst r. split; [left; reflexivity |].
    intros x [<- | []]. lia.
Qed.

(** Under [sqlite] a symbol passes exactly when one of its latest events is
    the row read and is a delisting or a PT flag. *)
Lemma sqlite_passes_on_latest_event b s :
  engine b = sqlite ->
  passes_having b s ->
  exists r, In r (events_of b s) /\ latest_event_date b s (ST_date r) /\
            in_end_kinds (ST_treatment r) = true.
Proof.
  unfold passes_having, having_end_kind. intros -> Hpass.
  destruct (bare_row (events_of b s) (having_row sqlite (events_of b s)))
    as [r |] eqn:Hrow; [| discriminate].
  exists r. split; [exact (bare_row_In _ _ _ _ Hrow) | split; [| exact Hpass]].
  apply latest_event_date_max, sqlite_reads_latest_event. exact Hrow.
Qed.

(** The rows of the query, symbol by symbol. *)
Lemma end_dates_query_rows b :
  end_dates_query b =
  map (fun k => [c_str k; of_date (func_max (map ST_date (events_of b k)))])
      (filter (fun k => having_end_kind (engine b) (events_of b k))
              (distinct_codes ST_code (SpecialTreatment_rows (tables b)))).
Proof.
  unfold end_dates_query, group_by. rewrite filter_map_comm, map_map. reflexivity.
Qed.

Lemma end_dates_query_In b row :
  In row (end_dates_query b) <->
  exists s d, row = [c_str s; c_date d] /\ passes_having b s /\ latest_event_date b s d.
Proof.
  rewrite end_dates_query_rows, in_map_iff. split.
  - intros [k [Hrow Hk]]. apply filter_In in Hk. destruct Hk as [_ Hpass].
    destruct (passes_having_has_end_event b k Hpass) as [r [Hr [Hs _]]].
    destruct (func_max (map ST_date (events_of b k))) as [d |] eqn:Hmax.
    + exists k, d. split; [symmetry; exact Hrow | split; [exact Hpass |]].
      apply latest_event_date_max. exact Hmax.
    + assert (Hin : In r (events_of b k)) by (apply events_of_In; auto).
      destruct (events_of b k); [destruct Hin | discriminate Hmax].
  - intros [s [d [-> [Hpass Hlatest]]]]. exists s. split.
    + apply latest_event_date_max in Hlatest. rewrite Hlatest. reflexivity.
    + apply filter_In. split; [| exact Hpass].
      destruct (passes_having_has_end_event b s Hpass) as [r [Hr [Hs _]]].
      apply distinct_codes_In, in_map_iff. exists r. auto.
Qed.

Lemma NoDup_map_inj A B (f : A -> B) l :
  (forall x y, f x = f y -> x = y) -> NoDup l -> NoDup (map f l).
Proof.
  intros Hinj Hnd. induction Hnd as [| x l Hnotin Hnd IH]; cbn; constructor.
  - intro Hin. apply in_map_iff in Hin. destruct Hin as [y [Heq Hy]].
    apply Hinj in Heq. subst y. contradiction.
  - exact IH.
Qed.

Lemma end_dates_query_NoDup b : NoDup (end_dates_query b).
Proof.
  rewrite end_dates_query_rows.
  apply (NoDup_map_inv (fun row => nth 0 row c_null)). rewrite map_map. cbn.
  apply NoDup_map_inj.
  - intros x y H. inversion H. reflexivity.
  - apply NoDup_filter, distinct_codes_NoDup.
Qed.

Lemma get_end_dates_returns b :
  returns get_end_dates b =
  match end_dates_query b with
  | [] => inl (ValueError_length_mismatch 0 2)
  | _ :: _ => inr {| columns := [L_name "symbol"; L_name "end_date"];
                     records := end_dates_query b |}
  end.
Proof.
  unfold returns. rewrite get_end_dates_run.
  destruct (end_dates_query b); reflexivity.
Qed.

(** C1 (as amended): on every backing store with a group that passes the
    HAVING clause, [get_end_dates] returns the columns symbol and end_date
    with exactly one row for each symbol whose group passes, paired with the
    latest event date of the group; a group passes when the row on which the
    engine reads [treatment] is a delisting or a PT flag, so every returned
    symbol has such an event and a symbol with none is absent. *)
Theorem get_end_dates_keeps_groups_passing_having b :
  (exists s, passes_having b s) ->
  exists df,
    returns get_end_dates b = inr df /\
    columns df = [L_name "symbol"; L_name "end_date"] /\
    NoDup (records df) /\
    (forall row, In row (records df) <->
                 exists s d, row = [c_str s; c_date d] /\
                             passes_having b s /\ latest_event_date b s d) /\
    (forall s d, In [c_str s; c_date d] (records df) -> has_end_event b s).
Proof.
  intros [s Hpass].
  assert (Hsome : end_dates_query b <> []).
  { destruct (passes_having_has_end_event b s Hpass) as [r [Hr [Hs _]]].
    assert (Hne : events_of b s <> []).
    { intro Hnil. assert (Hin : In r (events_of b s)) by (apply events_of_In; auto).
      rewrite Hnil in Hin. destruct Hin. }
    destruct (func_max (map ST_date (events_of b s))) as [d |] eqn:Hmax.
    - intro Hnil.
      assert (Hin : In [c_str s; c_date d] (end_dates_query b)).
      { apply end_dates_query_In. exists s, d.
        split; [reflexivity | split; [exact Hpass | apply latest_event_date_max; exact Hmax]]. }
      rewrite Hnil in Hin. destruct Hin.
    - destruct (events_of b s); [congruence | discriminate Hmax]. }
  exists {| columns := [L_name "symbol"; L_name "end_date"]; records := end_dates_query b |}.
  split; [| split; [reflexivity | split; [apply end_dates_query_NoDup | split]]].
  - rewrite get_end_dates_returns. destruct (end_dates_query b); [congruence | reflexivity].
  - intro row. apply end_dates_query_In.
  - cbn [records]. intros s' d' Hin. apply end_dates_query_In in Hin.
    destruct Hin as [s2 [d2 [Heq [Hp _]]]]. inversion Heq. subst.
    apply passes_having_has_end_event. exact Hp.
Qed.

Lemma get_end_dates_keeps_groups_passing_having_witness :
  passes_having Sample.resumed_market "000003" /\
  exists df,
    returns get_end_dates Sample.resumed_market = inr df /\
    columns df = [L_name "symbol"; L_name "end_date"] /\
    (In [c_str "000003"; c_date (ymd2ord 2002 6 14)] (records df) ->
     has_end_event Sample.resumed_market "000003").
Proof.
  split; [reflexivity |].
  destruct (get_end_dates_keeps_groups_passing_having Sample.resumed_market)
    as [df [Hret [Hcols [_ [_ Hend]]]]].
  - exists "000003". reflexivity.
  - exists df. split; [exact Hret | split; [exact Hcols | apply Hend]].
Defined.

(** C1 (counterexample): "000004" has a PT event, so the specification
    puts it in the result with its latest event date; its latest event is
    of another kind, the engine reads [treatment] on that row, and the
    result that [get_end_dates] returns does not list it. *)
Lemma get_end_dates_drops_symbol_with_earlier_PT :
  exists df,
    returns get_end_dates Sample.resumed_market = inr df /\
    ~ end_dates_as_specified Sample.resumed_market df.
Proof.
  eexists. split; [reflexivity |].
  intro Hspec. destruct (Hspec "000004" (ymd2ord 2002 3 1)) as [_ Hin].
  assert (H : In [c_str "000004"; c_date (ymd2ord 2002 3 1)]
                 [[c_str "000003"; c_date 731015%Z]]).
  { apply Hin. split.
    - exists {| ST_code := "000004"; ST_date := ymd2ord 2001 5 9; ST_treatment := PT |}.
      cbn. intuition.
    - split.
      + exists {| ST_code := "000004"; ST_date := ymd2ord 2002 3 1;
                  ST_treatment := other_treatment 1 |}.
        cbn. intuition.
      + cbn. intros r [<- | [<- | [<- | [<- | [<- | []]]]]] Hcode;
          try discriminate Hcode; vm_compute; discriminate. }
  destruct H as [H | []]. discriminate H.
Qed.

(** ** gen_asset_metadata *)

Lemma set_columns_from_records rows names df :
  set_columns (from_records rows) names = inr df ->
  df = {| columns := map L_name names; records := rows |}.
Proof.
  unfold set_columns.
  destruct (Nat.eqb (List.length (columns (from_records rows))) (List.length names));
    [| discriminate].
  intro H. inversion H. f_equal. destruct rows; reflexivity.
Qed.

Lemma traverse_combine A B C (f : B -> result C) (h : A -> B) l :
  forall ys, traverse f (map h l) = inr ys ->
             forall x y, In (x, y) (combine l ys) -> f (h x) = inr y.
Proof.
  induction l as [| a l IH]; intros ys Hys x y Hin.
  - destruct Hin.
  - cbn in Hys. destruct (f (h a)) as [e | c] eqn:Hfa; [discriminate |].
    cbn in Hys. destruct (traverse f (map h l)) as [e | cs] eqn:Hrest; [discriminate |].
    cbn in Hys. inversion Hys. subst ys. destruct Hin as [Heq | Hin].
    + inversion Heq. subst. exact Hfa.
    + exact (IH cs eq_refl x y Hin).
Qed.

Lemma group_by_In A (key : A -> string) rows k g :
  In (k, g) (group_by key rows) ->
  g = filter (fun r => String.eqb (key r) k) rows /\ g <> [].
Proof.
  unfold group_by. intro H. apply in_map_iff in H. destruct H as [k' [Heq Hk]].
  inversion Heq. subst k'. split; [reflexivity |].
  apply distinct_codes_In, in_map_iff in Hk. destruct Hk as [r [Hkey Hr]].
  intro Hnil.
  assert (Hin : In r (filter (fun r => String.eqb (key r) k) rows)).
  { apply filter_In. split; [exact Hr | apply String.eqb_eq; exact Hkey]. }
  rewrite Hnil in Hin. destruct Hin.
Qed.

Lemma agg_nonempty f ds : ds <> [] -> exists d, agg f ds = Some d.
Proof. destruct ds as [| d ds]; [congruence | intros _; eexists; reflexivity]. Qed.

Lemma asset_query_row b row :
  In row (asset_query b) ->
  exists code name first last,
    row = [c_str code; name; c_date first; c_date last] /\
    bars_of b code <> [] /\
    func_min (map SD_date (bars_of b code)) = Some first /\
    func_max (map SD_date (bars_of b code)) = Some last.
Proof.
  unfold asset_query. intro H. apply in_map_iff in H. destruct H as [[k g] [Hrow Hkg]].
  apply group_by_In in Hkg. destruct Hkg as [Hg Hne]. cbn [fst snd] in Hrow.
  fold (bars_of b k) in Hg. subst g.
  assert (Hdates : map SD_date (bars_of b k) <> []).
  { destruct (bars_of b k); [congruence | discriminate]. }
  destruct (agg_nonempty Z.min _ Hdates) as [first Hfirst].
  destruct (agg_nonempty Z.max _ Hdates) as [last Hlast].
  unfold func_min, func_max in *. rewrite Hfirst, Hlast in Hrow.
  eexists k, _, first, last. split; [symmetry; exact Hrow | auto].
Qed.

Lemma map_get_exchange_inr x y :
  map_get_exchange x = inr y ->
  exists code e, x = c_str code /\ get_exchange code = ok e /\ y = c_str e.
Proof.
  unfold map_get_exchange, raise. destruct x as [code | | |]; try discriminate.
  destruct (get_exchange code) as [err | e] eqn:He; cbn; [discriminate |].
  intro H. inversion H. exists code, e. repeat split. exact He.
Qed.

Lemma add_one_day_inr x y :
  add_one_day x = inr y -> exists d, x = c_date d /\ y = c_date (d + 1)%Z.
Proof.
  unfold add_one_day, raise. destruct x as [| d | |]; try discriminate.
  unfold date_add_day, raise. destruct (d + 1 <=? MAXORDINAL)%Z; cbn; [| discriminate].
  intro H. inversion H. exists d. split; reflexivity.
Qed.

(** The rows of a left join, when the key is the first column of the left
    frame and the right frame has the key and one more column. *)
Lemma merge_left_lookup L R on c2 m :
  merge_left L R on = inr m ->
  index_of (L_name on) (columns L) = Some 0%nat ->
  columns R = [L_name on; c2] ->
  (forall r, In r (records R) -> exists k v, r = [c_str k; v]) ->
  forall row, In row (records m) ->
    exists l x, In l (records L) /\ row = l ++ [x] /\
      forall code, nth 0 l c_null = c_str code ->
        (x = c_null /\ forall v, ~ In [c_str code; v] (records R)) \/
        In [c_str code; x] (records R).
Proof.
  intros Hm Hi Hcols Hshape. unfold merge_left in Hm. rewrite Hi, Hcols in Hm.
  cbn [index_of label_eqb] in Hm. rewrite String.eqb_refl in Hm.
  inversion Hm. subst m. clear Hm. cbn [records].
  intros row Hrow. apply in_flat_map in Hrow. destruct Hrow as [l [Hl Hrow]].
  destruct (filter (fun r => cell_eqb (nth 0 l c_null) (nth 0 r c_null)) (records R))
    as [| r0 ms] eqn:Hms.
  - destruct Hrow as [<- | []]. exists l, c_null. split; [exact Hl | split; [reflexivity |]].
    intros code Hcode. left. split; [reflexivity |]. intros v Hv.
    assert (Hin : In [c_str code; v]
                     (filter (fun r => cell_eqb (nth 0 l c_null) (nth 0 r c_null)) (records R))).
    { apply filter_In. split; [exact Hv |]. rewrite Hcode. cbn. apply String.eqb_refl. }
    rewrite Hms in Hin. destruct Hin.
  - change (In row (map (fun r => l ++ remove_nth 0 r) (r0 :: ms))) in Hrow.
    apply in_map_iff in Hrow. destruct Hrow as [r [<- Hr]].
    rewrite <- Hms in Hr. apply filter_In in Hr. destruct Hr as [Hr Hkey].
    destruct (Hshape r Hr) as [k [v ->]].
    exists l, v. split; [exact Hl | split; [reflexivity |]].
    intros code Hcode. right. rewrite Hcode in Hkey. cbn in Hkey.
    apply String.eqb_eq in Hkey. subst k. exact Hr.
Qed.

(** The frame before the joins: the grouped rows with their exchange and
    their auto-close date. *)
Lemma asset_rows_extended b exchange auto :
  traverse map_get_exchange (map (fun r => nth 0 r c_null) (asset_query b)) = inr exchange ->
  traverse add_one_day
           (map (fun r => nth 3 r c_null)
                (map (fun rv => fst rv ++ [snd rv]) (combine (asset_query b) exchange)))
  = inr auto ->
  forall row,
    In row (map (fun rv => fst rv ++ [snd rv])
                (combine (map (fun rv => fst rv ++ [snd rv]) (combine (asset_query b) exchange))
                         auto)) ->
    exists code, asset_row b code row.
Proof.
  intros Hex Hauto row Hrow.
  apply in_map_iff in Hrow. destruct Hrow as [[r2 a] [<- Hin2]]. cbn [fst snd].
  pose proof (traverse_combine _ _ _ _ _ _ _ Hauto r2 a Hin2) as Ha.
  apply in_combine_l, in_map_iff in Hin2. destruct Hin2 as [[r e] [<- Hin1]].
  cbn [fst snd] in *.
  pose proof (traverse_combine _ _ _ _ _ _ _ Hex r e Hin1) as He.
  apply in_combine_l, asset_query_row in Hin1.
  destruct Hin1 as [code [name [first [last [-> [Hne [Hmin Hmax]]]]]]].
  cbn [nth app] in He, Ha.
  apply map_get_exchange_inr in He. destruct He as [code' [ex [Hc [Hget ->]]]].
  inversion Hc. subst code'.
  apply add_one_day_inr in Ha. destruct Ha as [d [Hd ->]]. inversion Hd. subst d.
  exists code, name, first, last, ex. cbn. repeat split; assumption.
Qed.

Lemma start_dates_query_row b r :
  In r (start_dates_query b) -> exists k d, r = [c_str k; c_date d].
Proof.
  unfold start_dates_query. intro H. apply in_map_iff in H. destruct H as [x [<- Hx]].
  apply filter_In in Hx. destruct Hx as [_ Hsome].
  destruct (Issue_A004 x) as [d |]; [| discriminate]. exists (Issue_code x), d. reflexivity.
Qed.

Lemma gen_asset_metadata_rows b tr df tr' :
  gen_asset_metadata b tr = (inr df, tr') ->
  columns df = map L_name METADATA_COLS /\
  forall row, In row (records df) -> metadata_row b row.
Proof.
  intro H. unfold gen_asset_metadata in H.
  apply session_scope_inr in H. destruct H as [tr1 [H _]].
  rewrite bind_all in H. cbv beta zeta in H.
  invert_bind H df1 H1. apply set_columns_from_records in H1. subst df1.
  invert_bind H symbol H2.
  change (@inr exn _ (map (fun r => nth 0 r c_null) (asset_query b)) = inr symbol) in H2.
  inversion H2. subst symbol. clear H2.
  invert_bind H exchange H3. unfold series_map in H3.
  cbv beta zeta in H.
  invert_bind H last_traded H4.
  change (@inr exn _ (map (fun r => nth 3 r c_null)
                   (map (fun rv => fst rv ++ [snd rv]) (combine (asset_query b) exchange)))
          = inr last_traded) in H4.
  inversion H4. subst last_traded. clear H4.
  invert_bind H auto_close H5. unfold series_map in H5.
  cbv beta zeta in H.
  pose proof (asset_rows_extended b exchange auto_close H3 H5) as Hrows.
  invert_bind H start_dates H6.
  invert_bind H end_dates H7.
  invert_bind H merged H8.
  apply lift_inr in H. destruct H as [H9 _].
  rewrite get_start_dates_run in H6.
  destruct (start_dates_query b) as [| s0 ss] eqn:Hsq; [discriminate |].
  inversion H6. subst start_dates. clear H6. rewrite <- Hsq in *.
  rewrite get_end_dates_run in H7.
  destruct (end_dates_query b) as [| e0 es] eqn:Heq; [discriminate |].
  inversion H7. subst end_dates. clear H7. rewrite <- Heq in *.
  pose proof (merge_left_lookup _ _ _ (L_name "start_date") _ H8 eq_refl eq_refl) as Hm1.
  cbn [records] in Hm1.
  assert (Hcols1 : columns merged =
                   map L_name ["symbol"; "asset_name"; "first_traded"; "last_traded";
                               "exchange"; "auto_close_date"; "start_date"]).
  { unfold merge_left in H8. inversion H8. reflexivity. }
  pose proof (merge_left_lookup _ _ _ (L_name "end_date") _ H9) as Hm2.
  rewrite Hcols1 in Hm2. specialize (Hm2 eq_refl eq_refl). cbn [records] in Hm2.
  split.
  - unfold merge_left in H9. rewrite Hcols1 in H9. inversion H9. reflexivity.
  - intros row Hrow.
    destruct (Hm2 (fun r Hr => match proj1 (end_dates_query_In b r) Hr with
                               | ex_intro _ s (ex_intro _ d (conj Hr' _)) =>
                                   ex_intro _ s (ex_intro _ (c_date d) Hr')
                               end) row Hrow)
      as [l1 [y [Hl1 [-> Hy]]]].
    destruct (Hm1 (fun r Hr => match start_dates_query_row b r Hr with
                               | ex_intro _ k (ex_intro _ d Hr') =>
                                   ex_intro _ k (ex_intro _ (c_date d) Hr')
                               end) l1 Hl1)
      as [l [x [Hl [-> Hx]]]].
    destruct (Hrows l Hl) as [code Hasset].
    assert (Hkey : nth 0 l c_null = c_str code).
    { destruct Hasset as [name [first [last [e [-> _]]]]]. reflexivity. }
    exists code, l, x, y. split; [exact Hasset | split; [| split]].
    + rewrite <- app_assoc. reflexivity.
    + unfold start_cell. destruct (Hx code Hkey) as [[-> Hnone] | Hin].
      * left. split; [reflexivity |]. intros r Hr Hcode.
        destruct (Issue_A004 r) as [d |] eqn:Hd; [| reflexivity].
        exfalso. apply (Hnone (c_date d)). apply start_dates_query_In. exists r. auto.
      * right. destruct (start_dates_query_row b _ Hin) as [k [d Hshape]].
        inversion Hshape. subst k x. exists d. split; [reflexivity |].
        apply start_dates_query_In. exact Hin.
    + assert (Hkey1 : nth 0 (l ++ [x]) c_null = c_str code).
      { destruct Hasset as [name [first [last [e [-> _]]]]]. reflexivity. }
      unfold end_cell. destruct (Hy code Hkey1) as [[-> Hnone] | Hin].
      * left. split; [reflexivity |]. intro Hpass.
        destruct (passes_having_has_end_event b code Hpass) as [r [Hr [Hc _]]].
        assert (Hne : map ST_date (events_of b code) <> []).
        { assert (Hin : In r (events_of b code)) by (apply events_of_In; auto).
          destruct (events_of b code); [destruct Hin | discriminate]. }
        destruct (agg_nonempty Z.max _ Hne) as [d Hd].
        apply (Hnone (c_date d)). apply end_dates_query_In. exists code, d.
        split; [reflexivity | split; [exact Hpass | apply latest_event_date_max; exact Hd]].
      * right. apply end_dates_query_In in Hin.
        destruct Hin as [s [d [Hshape [Hpass Hlatest]]]]. inversion Hshape. subst s y.
        exists d. auto.
Qed.

Lemma gen_asset_metadata_returns_rows b df :
  returns gen_asset_metadata b = inr df ->
  columns df = map L_name METADATA_COLS /\
  forall row, In row (records df) -> metadata_row b row.
Proof.
  intro H. apply returns_inr in H. destruct H as [tr H].
  exact (gen_asset_metadata_rows b [] df tr H).
Qed.

(** C6: the exchange of a symbol is "SZSE" exactly when its first character
    is '0' or '3' and "SSE" for every other first character, and every row
    that [gen_asset_metadata] returns carries under exchange the value this
    rule gives for the row's symbol. *)
Theorem exchange_follows_first_character :
  (forall c rest,
      get_exchange (String c rest) = ok "SZSE" <-> (c = "0" \/ c = "3")%char) /\
  (forall c rest,
      get_exchange (String c rest) = ok "SSE" <-> ~ (c = "0" \/ c = "3")%char) /\
  (forall b df,
      returns gen_asset_metadata b = inr df ->
      forall row, In row (records df) ->
        exists c rest e,
          cell_of df row "symbol" = Some (c_str (String c rest)) /\
          get_exchange (String c rest) = ok e /\
          cell_of df row "exchange" = Some (c_str e)).
Proof.
  assert (Hrule : forall c rest,
             get_exchange (String c rest) =
             ok (if (Ascii.eqb c "0" || Ascii.eqb c "3")%bool then "SZSE" else "SSE")).
  { intros c rest. unfold get_exchange.
    destruct (Ascii.eqb c "0" || Ascii.eqb c "3")%bool; reflexivity. }
  assert (Hchar : forall c, (Ascii.eqb c "0" || Ascii.eqb c "3")%bool = true <->
                            (c = "0" \/ c = "3")%char).
  { intro c. rewrite orb_true_iff, !Ascii.eqb_eq. reflexivity. }
  split; [| split].
  - intros c rest. rewrite Hrule, <- Hchar.
    destruct (Ascii.eqb c "0" || Ascii.eqb c "3")%bool; split; intro H;
      try reflexivity; try discriminate H.
  - intros c rest. rewrite Hrule, <- Hchar.
    destruct (Ascii.eqb c "0" || Ascii.eqb c "3")%bool; split; intro H;
      try reflexivity; try discriminate H; congruence.
  - intros b df Hret row Hrow.
    destruct (gen_asset_metadata_returns_rows b df Hret) as [Hcols Hrows].
    destruct (Hrows row Hrow) as [code [l [x [y [Hasset [-> _]]]]]].
    destruct Hasset as [name [first [last [e [-> [_ [_ [_ Hget]]]]]]]].
    destruct code as [| c rest]; [discriminate Hget |].
    exists c, rest, e. unfold cell_of. rewrite Hcols.
    split; [reflexivity | split; [exact Hget | reflexivity]].
Qed.

Lemma exchange_follows_first_character_witness :
  returns gen_asset_metadata Sample.market = inr Sample.market_metadata /\
  In Sample.row_600000 (records Sample.market_metadata) /\
  exists c rest e,
    cell_of Sample.market_metadata Sample.row_600000 "symbol" = Some (c_str (String c rest)) /\
    get_exchange (String c rest) = ok e /\
    cell_of Sample.market_metadata Sample.row_600000 "exchange" = Some (c_str e).
Proof.
  split; [vm_compute; reflexivity | split; [vm_compute; tauto |]].
  apply (proj2 (proj2 exchange_follows_first_character) Sample.market Sample.market_metadata).
  - vm_compute. reflexivity.
  - vm_compute. tauto.
Defined.

(** C7: in every row that [gen_asset_metadata] returns, last_traded is a
    date (the latest bar of the symbol) and auto_close_date is the date one
    calendar day after it; it is never missing. *)
Theorem auto_close_date_is_next_day b df :
  returns gen_asset_metadata b = inr df ->
  forall row, In row (records df) ->
    exists last,
      cell_of df row "last_traded" = Some (c_date last) /\
      cell_of df row "auto_close_date" = Some (c_date (last + 1)%Z) /\
      cell_of df row "auto_close_date" <> Some c_null.
Proof.
  intros Hret row Hrow.
  destruct (gen_asset_metadata_returns_rows b df Hret) as [Hcols Hrows].
  destruct (Hrows row Hrow) as [code [l [x [y [Hasset [-> _]]]]]].
  destruct Hasset as [name [first [last [e [-> _]]]]].
  exists last. unfold cell_of. rewrite Hcols.
  split; [reflexivity | split; [reflexivity | discriminate]].
Qed.

Lemma auto_close_date_is_next_day_witness :
  returns gen_asset_metadata Sample.market = inr Sample.market_metadata /\
  In Sample.row_000003 (records Sample.market_metadata) /\
  exists last,
    cell_of Sample.market_metadata Sample.row_000003 "last_traded" = Some (c_date last) /\
    cell_of Sample.market_metadata Sample.row_000003 "auto_close_date"
    = Some (c_date (last + 1)%Z) /\
    cell_of Sample.market_metadata Sample.row_000003 "auto_close_date" <> Some c_null.
Proof.
  split; [vm_compute; reflexivity | split; [vm_compute; tauto |]].
  apply (auto_close_date_is_next_day Sample.market Sample.market_metadata).
  - vm_compute. reflexivity.
  - vm_compute. tauto.
Defined.

(** C3 (defect of the code): the specification gives one row to every symbol with
    daily bars and a missing end_date to those without a qualifying event.
    On a store with bars and listing dates but no special-treatment event
    at all, [get_end_dates] raises [ValueError] on its empty result and
    [gen_asset_metadata] raises with it: no row is produced. *)
Theorem gen_asset_metadata_raises_without_end_dates :
  bars_of Sample.young_market "000001" <> [] /\
  end_dates_query Sample.young_market = [] /\
  returns gen_asset_metadata Sample.young_market = inl (ValueError_length_mismatch 0 2) /\
  log gen_asset_metadata Sample.young_market =
  [Acquire; Select T_StockDaily;
   Acquire; Select T_Issue; Commit; Release;
   Acquire; Select T_SpecialTreatment; Rollback; Release;
   Rollback; Release].
Proof. split; [discriminate | repeat split]. Qed.

(** *** When [gen_asset_metadata] returns a table *)

Lemma traverse_total A B (f : A -> result B) l :
  (forall x, In x l -> exists y, f x = inr y) ->
  exists ys, traverse f l = inr ys /\ List.length ys = List.length l.
Proof.
  induction l as [| a l IH]; intro Hall.
  - exists []. split; reflexivity.
  - destruct (Hall a (or_introl eq_refl)) as [y Hy].
    destruct (IH (fun x Hx => Hall x (or_intror Hx))) as [ys [Hys Hlen]].
    exists (y :: ys). cbn. rewrite Hy. cbn. rewrite Hys. cbn. rewrite Hlen.
    split; reflexivity.
Qed.

(** Appending a value to every row keeps the keys in the first column. *)
Lemma extended_rows_keys (l : list (list cell)) : forall ys,
  List.length ys = List.length l ->
  (forall r, In r l -> r <> []) ->
  map (fun r => nth 0 r c_null) (map (fun rv => fst rv ++ [snd rv]) (combine l ys))
  = map (fun r => nth 0 r c_null) l.
Proof.
  induction l as [| r l IH]; intros ys Hlen Hne; [reflexivity |].
  destruct ys as [| y ys]; [discriminate Hlen |].
  cbn [combine map fst snd]. f_equal.
  - destruct r as [| c r]; [exfalso; exact (Hne [] (or_introl eq_refl) eq_refl) | reflexivity].
  - apply IH; [cbn in Hlen; lia | intros r' Hr'; apply Hne; right; exact Hr'].
Qed.

Lemma filter_at_most_one A B (f : A -> B) (p : A -> bool) l :
  NoDup (map f l) ->
  (forall x y, In x l -> In y l -> p x = true -> p y = true -> f x = f y) ->
  (List.length (filter p l) <= 1)%nat.
Proof.
  induction l as [| a l IH]; intros Hnd Hsame; [cbn; lia |].
  cbn [map] in Hnd. inversion Hnd as [| ? ? Hnotin Hnd']. subst.
  assert (IH' : (List.length (filter p l) <= 1)%nat).
  { apply IH; [exact Hnd' |]. intros x y Hx Hy. apply Hsame; right; assumption. }
  cbn [filter]. destruct (p a) eqn:Hpa; [| exact IH'].
  destruct (filter p l) as [| y ys] eqn:Hf; [cbn; lia |].
  exfalso. apply Hnotin.
  assert (Hy : In y (filter p l)) by (rewrite Hf; left; reflexivity).
  apply filter_In in Hy. destruct Hy as [Hy Hpy].
  rewrite (Hsame a y (or_introl eq_refl) (or_intror Hy) Hpa Hpy).
  apply in_map. exact Hy.
Qed.

(** A left join on a key that the right frame holds at most once keeps one
    row for each row of the left frame. *)
Lemma joined_rows_keys (lrows R : list (list cell)) j nulls :
  (forall l, In l lrows -> l <> []) ->
  (forall l, In l lrows ->
     (List.length (filter (fun r => cell_eqb (nth 0 l c_null) (nth j r c_null)) R) <= 1)%nat) ->
  map (fun r => nth 0 r c_null)
      (flat_map (fun l =>
                   match filter (fun r => cell_eqb (nth 0 l c_null) (nth j r c_null)) R with
                   | [] => [l ++ nulls]
                   | ms => map (fun r => l ++ remove_nth j r) ms
                   end) lrows)
  = map (fun r => nth 0 r c_null) lrows.
Proof.
  induction lrows as [| l lrows IH]; intros Hne Hone; [reflexivity |].
  cbn [flat_map]. rewrite map_app, IH.
  - assert (Hl : l <> []) by (apply Hne; left; reflexivity).
    specialize (Hone l (or_introl eq_refl)).
    destruct (filter (fun r => cell_eqb (nth 0 l c_null) (nth j r c_null)) R) as [| m ms].
    + destruct l; [congruence | reflexivity].
    + destruct ms; [| cbn in Hone; lia]. destruct l; [congruence | reflexivity].
  - intros l' Hl'. apply Hne. right. exact Hl'.
  - intros l' Hl'. apply Hone. right. exact Hl'.
Qed.

Lemma cell_eqb_str code x : cell_eqb (c_str code) x = true -> x = c_str code.
Proof.
  destruct x as [s | | |]; cbn; try discriminate.
  intro H. apply String.eqb_eq in H. subst. reflexivity.
Qed.

Lemma keyed_filter_at_most_one (R : list (list cell)) code :
  NoDup (map (fun r => nth 0 r c_null) R) ->
  (List.length (filter (fun r => cell_eqb (c_str code) (nth 0 r c_null)) R) <= 1)%nat.
Proof.
  intro Hnd. apply filter_at_most_one with (f := fun r => nth 0 r c_null); [exact Hnd |].
  intros x y _ _ Hx Hy. apply cell_eqb_str in Hx, Hy. congruence.
Qed.

Lemma end_dates_query_nonempty b s : passes_having b s -> end_dates_query b <> [].
Proof.
  intros Hpass Hnil.
  destruct (passes_having_has_end_event b s Hpass) as [r [Hr [Hs _]]].
  assert (Hne : map ST_date (events_of b s) <> []).
  { assert (Hin : In r (events_of b s)) by (apply events_of_In; auto).
    destruct (events_of b s); [destruct Hin | discriminate]. }
  destruct (agg_nonempty Z.max _ Hne) as [d Hd].
  assert (Hin : In [c_str s; c_date d] (end_dates_query b)).
  { apply end_dates_query_In. exists s, d.
    split; [reflexivity | split; [exact Hpass | apply latest_event_date_max; exact Hd]]. }
  rewrite Hnil in Hin. destruct Hin.
Qed.

Lemma end_dates_query_keys_NoDup b :
  NoDup (map (fun r => nth 0 r c_null) (end_dates_query b)).
Proof.
  rewrite end_dates_query_rows, map_map. cbn.
  apply NoDup_map_inj.
  - intros x y H. inversion H. reflexivity.
  - apply NoDup_filter, distinct_codes_NoDup.
Qed.

Lemma start_dates_query_keys_NoDup b :
  NoDup (map Issue_code
             (filter (fun r => isnot_None (Issue_A004 r)) (Issue_rows (tables b)))) ->
  NoDup (map (fun r => nth 0 r c_null) (start_dates_query b)).
Proof.
  intro Hnd. unfold start_dates_query. rewrite map_map. cbn.
  rewrite <- (map_map Issue_code c_str). apply NoDup_map_inj; [| exact Hnd].
  intros x y H. inversion H. reflexivity.
Qed.

Lemma bind_ok A B (m : M A) (k : A -> M B) b tr a tr1 :
  m b tr = (inr a, tr1) -> bind m k b tr = k a b tr1.
Proof. intro H. unfold bind. rewrite H. reflexivity. Qed.

Lemma get_column_at df name i :
  index_of (L_name name) (columns df) = Some i ->
  get_column df name = inr (map (fun r => nth i r c_null) (records df)).
Proof. intro H. unfold get_column. rewrite H. reflexivity. Qed.

Lemma set_column_new df name values :
  index_of (L_name name) (columns df) = None ->
  set_column df name values =
  {| columns := columns df ++ [L_name name];
     records := map (fun rv => fst rv ++ [snd rv]) (combine (records df) values) |}.
Proof. intro H. unfold set_column. rewrite H. reflexivity. Qed.

Lemma set_columns_from_records_ok rows names :
  rows <> [] ->
  (forall r, In r rows -> List.length r = List.length names) ->
  set_columns (from_records rows) names
  = inr {| columns := map L_name names; records := rows |}.
Proof.
  intros Hne Hlen. destruct rows as [| r rows]; [congruence |].
  unfold set_columns, from_records. cbn [columns records].
  rewrite length_positions, (Hlen r (or_introl eq_refl)), Nat.eqb_refl. reflexivity.
Qed.

Lemma asset_query_keys b :
  map (fun r => nth 0 r c_null) (asset_query b)
  = map c_str (distinct_codes SD_code (StockDaily_rows (tables b))).
Proof. unfold asset_query, group_by. rewrite !map_map. reflexivity. Qed.

Lemma asset_query_nonempty b : StockDaily_rows (tables b) <> [] -> asset_query b <> [].
Proof.
  intros Hne Hnil. pose proof (asset_query_keys b) as Hkeys. rewrite Hnil in Hkeys.
  destruct (StockDaily_rows (tables b)) as [| r rows]; [congruence |].
  assert (Hin : In (SD_code r) (distinct_codes SD_code (r :: rows))).
  { apply distinct_codes_In. left. reflexivity. }
  destruct (distinct_codes SD_code (r :: rows)); [destruct Hin | discriminate Hkeys].
Qed.

Lemma bars_of_In b s r :
  In r (bars_of b s) <-> In r (StockDaily_rows (tables b)) /\ SD_code r = s.
Proof. unfold bars_of. rewrite filter_In, String.eqb_eq. reflexivity. Qed.

Lemma merge_left_at L R on i j :
  index_of (L_name on) (columns L) = Some i ->
  index_of (L_name on) (columns R) = Some j ->
  merge_left L R on =
  inr {| columns :=
           map (fun c => if (negb (label_eqb c (L_name on))
                             && label_in c (remove_nth j (columns R)))%bool
                         then suffixed c "_x" else c) (columns L)
           ++ map (fun c => if label_in c (remove_nth i (columns L))
                            then suffixed c "_y" else c) (remove_nth j (columns R));
         records :=
           flat_map
             (fun l =>
                match filter (fun r => cell_eqb (nth i l c_null) (nth j r c_null))
                             (records R) with
                | [] => [l ++ repeat c_null (List.length (remove_nth j (columns R)))]
                | ms => map (fun r => l ++ remove_nth j r) ms
                end)
             (records L) |}.
Proof. intros Hi Hj. unfold merge_left. rewrite Hi, Hj. reflexivity. Qed.

Lemma keyed_app l x : keyed l -> keyed (l ++ x).
Proof. intros [code [rest ->]]. exists code, (rest ++ x). reflexivity. Qed.

Lemma keyed_nonempty l : keyed l -> l <> [].
Proof. intros [code [rest ->]]. discriminate. Qed.

Lemma extended_keyed rows ys :
  (forall r, In r rows -> keyed r) ->
  forall r, In r (map (fun rv => fst rv ++ [snd rv]) (combine rows ys)) -> keyed r.
Proof.
  intros Hk r Hr. apply in_map_iff in Hr. destruct Hr as [[l y] [<- Hin]].
  apply keyed_app, Hk. exact (in_combine_l _ _ _ _ Hin).
Qed.

Lemma joined_keyed R lrows :
  (forall l, In l lrows -> keyed l) -> forall r, In r (joined R lrows) -> keyed r.
Proof.
  intros Hk r Hr. unfold joined in Hr. apply in_flat_map in Hr. destruct Hr as [l [Hl Hr]].
  destruct (filter (fun r => cell_eqb (nth 0 l c_null) (nth 0 r c_null)) R) as [| m ms].
  - destruct Hr as [<- | []]. apply keyed_app, Hk, Hl.
  - change (In r (map (fun r => l ++ remove_nth 0 r) (m :: ms))) in Hr.
    apply in_map_iff in Hr. destruct Hr as [x [<- _]]. apply keyed_app, Hk, Hl.
Qed.

Lemma joined_keys R lrows :
  (forall l, In l lrows -> keyed l) ->
  NoDup (map (fun r => nth 0 r c_null) R) ->
  map (fun r => nth 0 r c_null) (joined R lrows) = map (fun r => nth 0 r c_null) lrows.
Proof.
  intros Hk Hnd. unfold joined. apply joined_rows_keys.
  - intros l Hl. apply keyed_nonempty, Hk, Hl.
  - intros l Hl. destruct (Hk l Hl) as [code [rest ->]]. cbn [nth].
    apply keyed_filter_at_most_one. exact Hnd.
Qed.

(** The symbol column of the table that [gen_asset_metadata] returns on a
    well-formed store. *)
Lemma gen_asset_metadata_symbol_column b :
  StockDaily_rows (tables b) <> [] ->
  (forall r, In r (StockDaily_rows (tables b)) ->
             SD_code r <> EmptyString /\ (SD_date r < MAXORDINAL)%Z) ->
  start_dates_query b <> [] ->
  (exists s, passes_having b s) ->
  NoDup (map Issue_code
             (filter (fun r => isnot_None (Issue_A004 r)) (Issue_rows (tables b)))) ->
  exists df,
    returns gen_asset_metadata b = inr df /\
    columns df = map L_name METADATA_COLS /\
    map (fun row => nth 0 row c_null) (records df)
    = map c_str (distinct_codes SD_code (StockDaily_rows (tables b))).
Proof.
  intros Hbars Hwf Hstart [s Hpass] Hkey.
  assert (Hshape : forall r, In r (asset_query b) ->
            exists code name first last,
              r = [c_str code; name; c_date first; c_date last] /\
              code <> EmptyString /\ (last < MAXORDINAL)%Z).
  { intros r Hr.
    destruct (asset_query_row b r Hr) as [code [name [first [last [-> [Hne [_ Hmax]]]]]]].
    exists code, name, first, last. split; [reflexivity |].
    apply func_max_spec in Hmax. destruct Hmax as [Hin _].
    apply in_map_iff in Hin. destruct Hin as [bar [Hd Hbar]].
    apply bars_of_In in Hbar. destruct Hbar as [Hbar Hcode].
    destruct (Hwf bar Hbar) as [Hc Hlt]. subst. split; assumption. }
  destruct (traverse_total _ _ map_get_exchange
              (map (fun r => nth 0 r c_null) (asset_query b))) as [exchange [Hex Hexlen]].
  { intros x Hx. apply in_map_iff in Hx. destruct Hx as [r [<- Hr]].
    destruct (Hshape r Hr) as [code [name [first [last [-> [Hc _]]]]]].
    cbn [nth]. unfold map_get_exchange, get_exchange.
    destruct code as [| c rest]; [congruence |].
    destruct (Ascii.eqb c "0" || Ascii.eqb c "3")%bool; eexists; reflexivity. }
  rewrite length_map in Hexlen.
  set (rows2 := map (fun rv => fst rv ++ [snd rv]) (combine (asset_query b) exchange)).
  destruct (traverse_total _ _ add_one_day (map (fun r => nth 3 r c_null) rows2))
    as [auto [Hauto Hautolen]].
  { intros x Hx. apply in_map_iff in Hx. destruct Hx as [r2 [<- Hr2]].
    apply in_map_iff in Hr2. destruct Hr2 as [[r e] [<- Hre]].
    apply in_combine_l in Hre.
    destruct (Hshape r Hre) as [code [name [first [last [-> [_ Hlt]]]]]].
    cbn [fst snd app nth]. unfold add_one_day, date_add_day.
    destruct (last + 1 <=? MAXORDINAL)%Z eqn:Hle; [eexists; reflexivity |].
    apply Z.leb_gt in Hle. lia. }
  rewrite length_map in Hautolen.
  set (rows3 := map (fun rv => fst rv ++ [snd rv]) (combine rows2 auto)).
  assert (Hsd : forall tr, get_start_dates b tr =
                  (inr {| columns := [L_name "symbol"; L_name "start_date"];
                          records := start_dates_query b |},
                   tr ++ [Acquire; Select T_Issue; Commit; Release])).
  { intro tr. rewrite get_start_dates_run.
    destruct (start_dates_query b); [congruence | reflexivity]. }
  assert (Hed : forall tr, get_end_dates b tr =
                  (inr {| columns := [L_name "symbol"; L_name "end_date"];
                          records := end_dates_query b |},
                   tr ++ [Acquire; Select T_SpecialTreatment; Commit; Release])).
  { intro tr. rewrite get_end_dates_run. pose proof (end_dates_query_nonempty b s Hpass).
    destruct (end_dates_query b); [congruence | reflexivity]. }
  exists {| columns := map L_name METADATA_COLS;
            records := joined (end_dates_query b) (joined (start_dates_query b) rows3) |}.
  split; [| split; [reflexivity |]].
  - unfold returns, gen_asset_metadata, session_scope.
    rewrite bind_all. cbv beta zeta.
    rewrite set_columns_from_records_ok.
    + rewrite bind_lift_ok.
      rewrite (get_column_at _ "symbol" 0) by reflexivity.
      rewrite bind_lift_ok. cbn [records]. unfold series_map. rewrite Hex, bind_lift_ok.
      rewrite (set_column_new _ "exchange" exchange) by reflexivity. cbn [columns records].
      rewrite (get_column_at _ "last_traded" 3) by reflexivity.
      rewrite bind_lift_ok. cbn [records]. fold rows2. rewrite Hauto, bind_lift_ok.
      rewrite (set_column_new _ "auto_close_date" auto) by reflexivity.
      cbn [columns records]. fold rows3.
      rewrite (bind_ok _ _ get_start_dates _ _ _ _ _ (Hsd _)).
      rewrite (bind_ok _ _ get_end_dates _ _ _ _ _ (Hed _)).
      rewrite (merge_left_at _ _ "symbol" 0 0) by reflexivity.
      rewrite bind_lift_ok.
      rewrite (merge_left_at _ _ "symbol" 0 0) by reflexivity.
      reflexivity.
    + apply asset_query_nonempty. exact Hbars.
    + intros r Hr. destruct (Hshape r Hr) as [code [name [first [last [-> _]]]]]. reflexivity.
  - cbn [records].
    assert (Hk1 : forall r, In r (asset_query b) -> keyed r).
    { intros r Hr. destruct (Hshape r Hr) as [code [name [first [last [-> _]]]]].
      eexists _, _. reflexivity. }
    assert (Hk2 : forall r, In r rows2 -> keyed r) by (apply extended_keyed; exact Hk1).
    assert (Hk3 : forall r, In r rows3 -> keyed r) by (apply extended_keyed; exact Hk2).
    rewrite joined_keys; [| apply joined_keyed; exact Hk3 | apply end_dates_query_keys_NoDup].
    rewrite joined_keys; [| exact Hk3 | apply start_dates_query_keys_NoDup; exact Hkey].
    unfold rows3. rewrite extended_rows_keys.
    + unfold rows2. rewrite extended_rows_keys.
      * apply asset_query_keys.
      * exact Hexlen.
      * intros r Hr. apply keyed_nonempty, Hk1, Hr.
    + rewrite Hautolen. reflexivity.
    + intros r Hr. apply keyed_nonempty, Hk2, Hr.
Qed.

(** ** Further properties of the operations *)

(** *** get_start_dates and get_end_dates *)

(** X1: on a store where some Issue row has a listing date,
    [get_start_dates] returns the columns symbol, start_date with one row
    for each Issue row that has a listing date, in table order; no returned
    start_date is missing, and the one session it opened is committed and
    released. *)
Theorem get_start_dates_lists_listed_issues b tr :
  (exists r, In r (Issue_rows (tables b)) /\ Issue_A004 r <> None) ->
  get_start_dates b tr =
  (inr {| columns := [L_name "symbol"; L_name "start_date"];
          records := map (fun r => [c_str (Issue_code r); of_date (Issue_A004 r)])
                         (filter (fun r => isnot_None (Issue_A004 r))
                                 (Issue_rows (tables b))) |},
   tr ++ [Acquire; Select T_Issue; Commit; Release]) /\
  forall row,
    In row (map (fun r => [c_str (Issue_code r); of_date (Issue_A004 r)])
                (filter (fun r => isnot_None (Issue_A004 r)) (Issue_rows (tables b)))) ->
    exists s d, row = [c_str s; c_date d].
Proof.
  intros [r [Hr Hlisted]]. split.
  - rewrite get_start_dates_run.
    assert (Hin : In [c_str (Issue_code r); of_date (Issue_A004 r)] (start_dates_query b)).
    { unfold start_dates_query. apply in_map_iff. exists r. split; [reflexivity |].
      apply filter_In. split; [exact Hr |].
      destruct (Issue_A004 r); [reflexivity | congruence]. }
    destruct (start_dates_query b) as [| x xs] eqn:Hq; [destruct Hin |].
    rewrite <- Hq. reflexivity.
  - intros row Hrow. exact (start_dates_query_row b row Hrow).
Qed.

Lemma get_start_dates_lists_listed_issues_witness :
  (exists r, In r (Issue_rows (tables Sample.market)) /\ Issue_A004 r <> None) /\
  returns get_start_dates Sample.market =
  inr {| columns := [L_name "symbol"; L_name "start_date"];
         records := [[c_str "000001"; c_date (ymd2ord 1991 4 3)];
                     [c_str "000003"; c_date (ymd2ord 1991 1 14)];
                     [c_str "600000"; c_date (ymd2ord 1999 11 10)]] |}.
Proof.
  assert (H : exists r, In r (Issue_rows (tables Sample.market)) /\ Issue_A004 r <> None).
  { exists {| Issue_code := "000001"; Issue_A004 := Some (ymd2ord 1991 4 3) |}.
    split; [left; reflexivity | discriminate]. }
  split; [exact H |].
  unfold returns.
  rewrite (proj1 (get_start_dates_lists_listed_issues Sample.market [] H)).
  reflexivity.
Defined.

(** X2: on every store where no Issue row has a listing date (an empty
    Issue table included), [get_start_dates] raises the [ValueError] of
    naming two columns on a frame without columns; its session is rolled
    back and released. *)
Theorem get_start_dates_raises_when_nothing_is_listed b tr :
  (forall r, In r (Issue_rows (tables b)) -> Issue_A004 r = None) ->
  get_start_dates b tr =
  (inl (ValueError_length_mismatch 0 2), tr ++ [Acquire; Select T_Issue; Rollback; Release]).
Proof.
  intro Hnone. rewrite get_start_dates_run.
  destruct (start_dates_query b) as [| x xs] eqn:Hq; [reflexivity |].
  assert (Hx : In x (start_dates_query b)) by (rewrite Hq; left; reflexivity).
  destruct (start_dates_query_row b x Hx) as [s [d ->]].
  apply start_dates_query_In in Hx. destruct Hx as [r [Hr [_ Hd]]].
  rewrite (Hnone r Hr) in Hd. discriminate Hd.
Qed.

Lemma get_start_dates_raises_when_nothing_is_listed_witness :
  (forall r, In r (Issue_rows (tables Sample.unlisted_market)) -> Issue_A004 r = None) /\
  get_start_dates Sample.unlisted_market [] =
  (inl (ValueError_length_mismatch 0 2), [Acquire; Select T_Issue; Rollback; Release]).
Proof.
  assert (H : forall r, In r (Issue_rows (tables Sample.unlisted_market)) ->
                        Issue_A004 r = None).
  { intros r [<- | []]. reflexivity. }
  split; [exact H |].
  exact (get_start_dates_raises_when_nothing_is_listed Sample.unlisted_market [] H).
Defined.

(** X3: [get_end_dates] raises exactly when no group passes the HAVING
    clause: then it raises the [ValueError] of naming two columns on a frame
    without columns and rolls its session back, and whenever it raises no
    symbol passes. *)
Theorem get_end_dates_raises_iff_no_group_passes b :
  ((forall s, ~ passes_having b s) ->
   forall tr, get_end_dates b tr =
              (inl (ValueError_length_mismatch 0 2),
               tr ++ [Acquire; Select T_SpecialTreatment; Rollback; Release])) /\
  (forall e, returns get_end_dates b = inl e -> forall s, ~ passes_having b s).
Proof.
  split.
  - intros Hnone tr. rewrite get_end_dates_run.
    destruct (end_dates_query b) as [| x xs] eqn:Hq; [reflexivity |].
    assert (Hx : In x (end_dates_query b)) by (rewrite Hq; left; reflexivity).
    apply end_dates_query_In in Hx. destruct Hx as [s [d [_ [Hpass _]]]].
    destruct (Hnone s Hpass).
  - intros e Hret s Hpass. rewrite get_end_dates_returns in Hret.
    pose proof (end_dates_query_nonempty b s Hpass) as Hne.
    destruct (end_dates_query b); [congruence | discriminate Hret].
Qed.

Lemma get_end_dates_raises_iff_no_group_passes_witness :
  (forall s, ~ passes_having Sample.young_market s) /\
  get_end_dates Sample.young_market [] =
  (inl (ValueError_length_mismatch 0 2),
   [Acquire; Select T_SpecialTreatment; Rollback; Release]).
Proof.
  assert (H : forall s, ~ passes_having Sample.young_market s).
  { intros s Hpass. discriminate Hpass. }
  split; [exact H |].
  exact (proj1 (get_end_dates_raises_iff_no_group_passes Sample.young_market) H []).
Defined.

(** X4: on an engine with SQLite's rule, every row that [get_end_dates]
    returns pairs a symbol with the date of an event of that symbol that is
    a delisting or a PT flag and that no other event of the symbol comes
    after. *)
Theorem get_end_dates_sqlite_ends_on_latest_event b df :
  engine b = sqlite ->
  returns get_end_dates b = inr df ->
  forall s d, In [c_str s; c_date d] (records df) ->
    exists r, In r (SpecialTreatment_rows (tables b)) /\
              ST_code r = s /\ ST_date r = d /\ in_end_kinds (ST_treatment r) = true /\
              forall r', In r' (SpecialTreatment_rows (tables b)) -> ST_code r' = s ->
                         (ST_date r' <= d)%Z.
Proof.
  intros Hengine Hret s d Hin. rewrite get_end_dates_returns in Hret.
  destruct (end_dates_query b) as [| x xs] eqn:Hq; [discriminate Hret |].
  inversion Hret. subst df. clear Hret. cbn [records] in Hin. rewrite <- Hq in Hin.
  apply end_dates_query_In in Hin. destruct Hin as [s' [d' [Heq [Hpass Hlatest]]]].
  inversion Heq. subst s' d'.
  destruct (sqlite_passes_on_latest_event b s Hengine Hpass) as [r [Hr [Hlatest_r Hkind]]].
  apply events_of_In in Hr. destruct Hr as [Hr Hcode].
  apply latest_event_date_max in Hlatest, Hlatest_r.
  rewrite Hlatest in Hlatest_r. inversion Hlatest_r. subst d.
  exists r. repeat split; try assumption.
  apply latest_event_date_max in Hlatest. exact (proj2 Hlatest).
Qed.

Lemma get_end_dates_sqlite_ends_on_latest_event_witness :
  engine Sample.resumed_market = sqlite /\
  returns get_end_dates Sample.resumed_market =
  inr {| columns := [L_name "symbol"; L_name "end_date"];
         records := [[c_str "000003"; c_date (ymd2ord 2002 6 14)]] |} /\
  exists r, In r (SpecialTreatment_rows (tables Sample.resumed_market)) /\
            ST_code r = "000003" /\ ST_date r = ymd2ord 2002 6 14 /\
            in_end_kinds (ST_treatment r) = true /\
            forall r', In r' (SpecialTreatment_rows (tables Sample.resumed_market)) ->
                       ST_code r' = "000003" -> (ST_date r' <= ymd2ord 2002 6 14)%Z.
Proof.
  split; [reflexivity | split; [reflexivity |]].
  apply (get_end_dates_sqlite_ends_on_latest_event Sample.resumed_market _ eq_refl eq_refl).
  left. reflexivity.
Defined.

(** *** fetch_single_equity and fetch_single_quity_adjustments *)

(** X5: when both dates are read as dates and some bar of the symbol lies
    in the inclusive range, [fetch_single_equity] returns the thirteen
    columns in their fixed order; its rows are, in some order (the query
    has no ORDER BY), the bars of the table that have the symbol and a date
    in the range, once for each such bar and with the thirteen selected
    fields as cells; its one session is committed and released. *)
Theorem fetch_single_equity_returns_matching_bars parse code start end_ s e b tr :
  to_date parse start = inr (Some s) ->
  to_date parse end_ = inr (Some e) ->
  (exists r, In r (StockDaily_rows (tables b)) /\ SD_code r = code /\
             (s <= SD_date r <= e)%Z) ->
  exists df,
    fetch_single_equity parse code start end_ b tr =
    (inr df, tr ++ [Acquire; Select T_StockDaily; Commit; Release]) /\
    columns df = [L_name "symbol"; L_name "date"; L_name "open"; L_name "high";
                  L_name "low"; L_name "close"; L_name "prev_close";
                  L_name "change_pct"; L_name "volume"; L_name "amount";
                  L_name "turnover"; L_name "cmv"; L_name "tmv"] /\
    Permutation
      (records df)
      (map (fun r => [c_str (SD_code r); c_date (SD_date r);
                      of_num (SD_A002 r); of_num (SD_A003 r); of_num (SD_A004 r);
                      of_num (SD_A005 r); of_num (SD_A009 r); of_num (SD_A011 r);
                      of_num (SD_A006 r); of_num (SD_A007 r); of_num (SD_A008 r);
                      of_num (SD_A013 r); of_num (SD_A012 r)])
           (filter (fun r => (String.eqb (SD_code r) code
                              && (s <=? SD_date r)%Z && (SD_date r <=? e)%Z)%bool)
                   (StockDaily_rows (tables b)))).
Proof.
  intros Hs He [r Hr].
  rewrite (fetch_single_equity_run parse code start end_ s e b tr Hs He).
  apply daily_matching_In in Hr.
  pose proof (Permutation_map daily_tuple (daily_matching_Permutation code s e b)) as Hperm.
  destruct (daily_matching code s e b) as [| r0 rs]; [destruct Hr |].
  eexists. split; [reflexivity |]. cbn [columns records].
  split; [reflexivity | exact Hperm].
Qed.

Lemma fetch_single_equity_returns_matching_bars_witness :
  to_date parse_ymd (dl_str "2018-4-1") = inr (Some (ymd2ord 2018 4 1)) /\
  to_date parse_ymd (dl_str "2018-4-16") = inr (Some (ymd2ord 2018 4 16)) /\
  exists df,
    fetch_single_equity parse_ymd "000333" (dl_str "2018-4-1") (dl_str "2018-4-16")
                        Sample.market [] =
    (inr df, [Acquire; Select T_StockDaily; Commit; Release]) /\
    List.length (records df) = 2%nat.
Proof.
  split; [reflexivity | split; [reflexivity |]].
  assert (H : exists r, In r (StockDaily_rows (tables Sample.market)) /\
                        SD_code r = "000333" /\
                        (ymd2ord 2018 4 1 <= SD_date r <= ymd2ord 2018 4 16)%Z).
  { exists (Sample.bar "000333" (ymd2ord 2018 4 2) "name333"
                       53.30 55.00 52.68 52.84 54.53 (-3.0992)).
    split; [vm_compute; tauto | split; [reflexivity | vm_compute; split; discriminate]]. }
  destruct (fetch_single_equity_returns_matching_bars parse_ymd "000333"
              (dl_str "2018-4-1") (dl_str "2018-4-16")
              (ymd2ord 2018 4 1) (ymd2ord 2018 4 16) Sample.market []
              eq_refl eq_refl H) as [df [Hrun [_ Hperm]]].
  exists df. split; [exact Hrun |].
  rewrite (Permutation_length Hperm). reflexivity.
Defined.

(** X6: when both dates can be read and no bar of the symbol lies in the
    range, [fetch_single_equity] raises the [ValueError] of naming thirteen
    columns on a frame without columns, after its query, and its session is
    rolled back and released. *)
Theorem fetch_single_equity_raises_without_bars parse code start end_ s e b tr :
  to_date parse start = inr (Some s) ->
  to_date parse end_ = inr (Some e) ->
  (forall r, In r (StockDaily_rows (tables b)) -> SD_code r = code ->
             ~ (s <= SD_date r <= e)%Z) ->
  fetch_single_equity parse code start end_ b tr =
  (inl (ValueError_length_mismatch 0 13),
   tr ++ [Acquire; Select T_StockDaily; Rollback; Release]).
Proof.
  intros Hs He Hnone.
  rewrite (fetch_single_equity_run parse code start end_ s e b tr Hs He).
  destruct (daily_matching code s e b) as [| r rs] eqn:Hm; [reflexivity |].
  assert (Hr : In r (daily_matching code s e b)) by (rewrite Hm; left; reflexivity).
  apply daily_matching_In in Hr. destruct Hr as [Hr [Hcode Hrange]].
  destruct (Hnone r Hr Hcode Hrange).
Qed.

Lemma fetch_single_equity_raises_without_bars_witness :
  to_date parse_ymd (dl_str "1990-1-1") = inr (Some (ymd2ord 1990 1 1)) /\
  to_date parse_ymd (dl_str "1990-12-31") = inr (Some (ymd2ord 1990 12 31)) /\
  fetch_single_equity parse_ymd "600000" (dl_str "1990-1-1") (dl_str "1990-12-31")
                      Sample.market [] =
  (inl (ValueError_length_mismatch 0 13),
   [Acquire; Select T_StockDaily; Rollback; Release]).
Proof.
  split; [reflexivity | split; [reflexivity |]].
  apply (fetch_single_equity_raises_without_bars parse_ymd "600000"
           (dl_str "1990-1-1") (dl_str "1990-12-31")
           (ymd2ord 1990 1 1) (ymd2ord 1990 12 31) Sample.market [] eq_refl eq_refl).
  intros r Hr Hcode [_ Hle]. apply Hle. clear Hle.
  cbn in Hr. repeat (destruct Hr as [<- | Hr]; [try discriminate Hcode; reflexivity |]).
  destruct Hr.
Defined.

(** X7: every row that [fetch_single_equity] returns comes from a bar of
    the symbol with a date in the range that was read, and holds under each
    column name the field of that bar the query selected for it: prev_close
    and change_pct come before volume, amount and turnover, and cmv (the
    circulating value) before tmv (the total value). *)
Theorem fetch_single_equity_names_the_fields parse code start end_ b df :
  returns (fetch_single_equity parse code start end_) b = inr df ->
  forall row, In row (records df) ->
    exists s e r,
      to_date parse start = inr (Some s) /\ to_date parse end_ = inr (Some e) /\
      In r (StockDaily_rows (tables b)) /\ SD_code r = code /\
      (s <= SD_date r <= e)%Z /\
      cell_of df row "symbol" = Some (c_str code) /\
      cell_of df row "date" = Some (c_date (SD_date r)) /\
      cell_of df row "open" = Some (of_num (SD_A002 r)) /\
      cell_of df row "high" = Some (of_num (SD_A003 r)) /\
      cell_of df row "low" = Some (of_num (SD_A004 r)) /\
      cell_of df row "close" = Some (of_num (SD_A005 r)) /\
      cell_of df row "prev_close" = Some (of_num (SD_A009 r)) /\
      cell_of df row "change_pct" = Some (of_num (SD_A011 r)) /\
      cell_of df row "volume" = Some (of_num (SD_A006 r)) /\
      cell_of df row "amount" = Some (of_num (SD_A007 r)) /\
      cell_of df row "turnover" = Some (of_num (SD_A008 r)) /\
      cell_of df row "cmv" = Some (of_num (SD_A013 r)) /\
      cell_of df row "tmv" = Some (of_num (SD_A012 r)).
Proof.
  intros Hret row Hrow.
  destruct (returned_after_reading_dates parse code start end_ b df (or_introl Hret))
    as [s [e [Hs He]]].
  rewrite (fetch_single_equity_returns parse code start end_ s e b Hs He) in Hret.
  destruct (daily_matching code s e b) as [| r0 rs] eqn:Hm; [discriminate Hret |].
  inversion Hret. subst df. clear Hret. cbn [records] in Hrow.
  change (In row (map daily_tuple (r0 :: rs))) in Hrow. rewrite <- Hm in Hrow.
  apply in_map_iff in Hrow. destruct Hrow as [r [<- Hr]].
  apply daily_matching_In in Hr. destruct Hr as [Hr [Hcode Hrange]].
  exists s, e, r. unfold cell_of. cbn [columns]. rewrite <- Hcode.
  repeat (split; [first [reflexivity | assumption] |]). reflexivity.
Qed.

Lemma fetch_single_equity_names_the_fields_witness :
  exists df,
    returns (fetch_single_equity parse_ymd "000333" (dl_str "2018-4-1") (dl_str "2018-4-2"))
            Sample.market = inr df /\
    forall row, In row (records df) ->
      exists s e r,
        to_date parse_ymd (dl_str "2018-4-1") = inr (Some s) /\
        to_date parse_ymd (dl_str "2018-4-2") = inr (Some e) /\
        In r (StockDaily_rows (tables Sample.market)) /\ SD_code r = "000333" /\
        (s <= SD_date r <= e)%Z /\
        cell_of df row "symbol" = Some (c_str "000333") /\
        cell_of df row "date" = Some (c_date (SD_date r)) /\
        cell_of df row "open" = Some (of_num (SD_A002 r)) /\
        cell_of df row "high" = Some (of_num (SD_A003 r)) /\
        cell_of df row "low" = Some (of_num (SD_A004 r)) /\
        cell_of df row "close" = Some (of_num (SD_A005 r)) /\
        cell_of df row "prev_close" = Some (of_num (SD_A009 r)) /\
        cell_of df row "change_pct" = Some (of_num (SD_A011 r)) /\
        cell_of df row "volume" = Some (of_num (SD_A006 r)) /\
        cell_of df row "amount" = Some (of_num (SD_A007 r)) /\
        cell_of df row "turnover" = Some (of_num (SD_A008 r)) /\
        cell_of df row "cmv" = Some (of_num (SD_A013 r)) /\
        cell_of df row "tmv" = Some (of_num (SD_A012 r)).
Proof.
  eexists. split; [vm_compute; reflexivity |].
  apply (fetch_single_equity_names_the_fields parse_ymd "000333"
           (dl_str "2018-4-1") (dl_str "2018-4-2") Sample.market).
  vm_compute. reflexivity.
Defined.

(** X8: a range whose end lies before its start matches no row: with such
    dates [fetch_single_equity] raises [ValueError] on every store, while
    [fetch_single_quity_adjustments] returns its empty table without
    columns. *)
Theorem inverted_range_matches_nothing parse code start end_ s e b :
  to_date parse start = inr (Some s) ->
  to_date parse end_ = inr (Some e) ->
  (e < s)%Z ->
  returns (fetch_single_equity parse code start end_) b
  = inl (ValueError_length_mismatch 0 13) /\
  returns (fetch_single_quity_adjustments parse code start end_) b
  = inr {| columns := []; records := [] |}.
Proof.
  intros Hs He Hlt. split.
  - rewrite (fetch_single_equity_returns parse code start end_ s e b Hs He).
    destruct (daily_matching code s e b) as [| r rs] eqn:Hm; [reflexivity |].
    assert (Hr : In r (daily_matching code s e b)) by (rewrite Hm; left; reflexivity).
    apply daily_matching_In in Hr. lia.
  - unfold returns.
    rewrite (fetch_single_quity_adjustments_run parse code start end_ s e b [] Hs He).
    destruct (adjustment_matching code s e b) as [| r rs] eqn:Hm; [reflexivity |].
    assert (Hr : In r (adjustment_matching code s e b)) by (rewrite Hm; left; reflexivity).
    apply adjustment_matching_In in Hr. lia.
Qed.

Lemma inverted_range_matches_nothing_witness :
  to_date parse_ymd (dl_str "2018-4-16") = inr (Some (ymd2ord 2018 4 16)) /\
  to_date parse_ymd (dl_str "2010-4-1") = inr (Some (ymd2ord 2010 4 1)) /\
  (ymd2ord 2010 4 1 < ymd2ord 2018 4 16)%Z /\
  returns (fetch_single_equity parse_ymd "600000" (dl_str "2018-4-16") (dl_str "2010-4-1"))
          Sample.market
  = inl (ValueError_length_mismatch 0 13) /\
  returns (fetch_single_quity_adjustments parse_ymd "600000" (dl_str "2018-4-16")
             (dl_str "2010-4-1")) Sample.market
  = inr {| columns := []; records := [] |}.
Proof.
  split; [reflexivity | split; [reflexivity | split; [reflexivity |]]].
  apply (inverted_range_matches_nothing parse_ymd "600000"
           (dl_str "2018-4-16") (dl_str "2010-4-1")
           (ymd2ord 2018 4 16) (ymd2ord 2010 4 1) Sample.market eq_refl eq_refl).
  reflexivity.
Defined.

Lemma filter_length_split A (p p1 p2 : A -> bool) l :
  (forall x, p x = (p1 x || p2 x)%bool) ->
  (forall x, (p1 x && p2 x)%bool = false) ->
  List.length (filter p l) = (List.length (filter p1 l) + List.length (filter p2 l))%nat.
Proof.
  intros Hor Hdisj. induction l as [| x l IH]; [reflexivity |].
  cbn [filter]. rewrite Hor. specialize (Hdisj x).
  destruct (p1 x), (p2 x); cbn in *; try discriminate; lia.
Qed.

Lemma adjustments_records parse code s e b :
  (ymd2ord 1677 9 22 <= s <= ymd2ord 2262 4 11)%Z ->
  (ymd2ord 1677 9 22 <= e <= ymd2ord 2262 4 11)%Z ->
  exists df,
    returns (fetch_single_quity_adjustments parse code (dl_date s) (dl_date e)) b = inr df /\
    records df = map adjustment_tuple (adjustment_matching code s e b).
Proof.
  change (ymd2ord 1677 9 22) with 612412%Z. change (ymd2ord 2262 4 11) with 825914%Z.
  intros Hs He. unfold returns.
  rewrite (fetch_single_quity_adjustments_run parse code (dl_date s) (dl_date e) s e b []
             (to_date_of_date parse s Hs) (to_date_of_date parse e He)).
  eexists. split; [reflexivity |].
  destruct (adjustment_matching code s e b); reflexivity.
Qed.

(** X9: for dates inside the bounds of [pd.Timestamp],
    [fetch_single_quity_adjustments] over a range returns the rows it
    returns over the two halves of the range, none lost and none twice: a
    row is in the result for [s, e] exactly when it is in the result for
    [s, m] or in the one for [m + 1, e], and the numbers of rows add up. *)
Theorem fetch_single_quity_adjustments_splits_range parse code s m e b :
  (ymd2ord 1677 9 22 <= s)%Z -> (s <= m)%Z -> (m < e)%Z -> (e <= ymd2ord 2262 4 11)%Z ->
  exists whole first second,
    returns (fetch_single_quity_adjustments parse code (dl_date s) (dl_date e)) b
    = inr whole /\
    returns (fetch_single_quity_adjustments parse code (dl_date s) (dl_date m)) b
    = inr first /\
    returns (fetch_single_quity_adjustments parse code (dl_date (m + 1)%Z) (dl_date e)) b
    = inr second /\
    (forall row, In row (records whole) <->
                 In row (records first) \/ In row (records second)) /\
    List.length (records whole)
    = (List.length (records first) + List.length (records second))%nat.
Proof.
  intros Hmin Hsm Hme Hmax.
  destruct (adjustments_records parse code s e b) as [whole [Hw Hwr]]; [lia | lia |].
  destruct (adjustments_records parse code s m b) as [first [Hf Hfr]]; [lia | lia |].
  destruct (adjustments_records parse code (m + 1)%Z e b) as [second [Hn Hnr]];
    [lia | lia |].
  exists whole, first, second. rewrite Hwr, Hfr, Hnr.
  split; [exact Hw | split; [exact Hf | split; [exact Hn | split]]].
  - intro row. rewrite !in_map_iff. split.
    + intros [r [Hrow Hr]]. apply adjustment_matching_In in Hr.
      destruct (Z_le_gt_dec (ADJ_date r) m) as [Hle | Hgt].
      * left. exists r. split; [exact Hrow |]. apply adjustment_matching_In.
        repeat split; try tauto; lia.
      * right. exists r. split; [exact Hrow |]. apply adjustment_matching_In.
        repeat split; try tauto; lia.
    + intros [[r [Hrow Hr]] | [r [Hrow Hr]]]; apply adjustment_matching_In in Hr;
        exists r; (split; [exact Hrow |]); apply adjustment_matching_In;
        repeat split; try tauto; lia.
  - rewrite !length_map. unfold adjustment_matching. rewrite !sort_by_length.
    apply filter_length_split.
    + intro r. unfold between.
      destruct (s <=? ADJ_date r)%Z eqn:H1, (ADJ_date r <=? e)%Z eqn:H2,
               (ADJ_date r <=? m)%Z eqn:H3, (m + 1 <=? ADJ_date r)%Z eqn:H4;
        cbn; try reflexivity;
        rewrite ?Z.leb_le, ?Z.leb_gt in *; lia.
    + intro r. unfold between.
      destruct (s <=? ADJ_date r)%Z eqn:H1, (ADJ_date r <=? e)%Z eqn:H2,
               (ADJ_date r <=? m)%Z eqn:H3, (m + 1 <=? ADJ_date r)%Z eqn:H4;
        cbn; try reflexivity;
        rewrite ?Z.leb_le, ?Z.leb_gt in *; lia.
Qed.

Lemma fetch_single_quity_adjustments_splits_range_witness :
  (ymd2ord 1677 9 22 <= ymd2ord 2010 4 1)%Z /\
  (ymd2ord 2010 4 1 <= ymd2ord 2010 12 31)%Z /\
  (ymd2ord 2010 12 31 < ymd2ord 2018 4 16)%Z /\
  (ymd2ord 2018 4 16 <= ymd2ord 2262 4 11)%Z /\
  exists whole first second,
    returns (fetch_single_quity_adjustments parse_ymd "600000"
               (dl_date (ymd2ord 2010 4 1)) (dl_date (ymd2ord 2018 4 16))) Sample.market
    = inr whole /\
    returns (fetch_single_quity_adjustments parse_ymd "600000"
               (dl_date (ymd2ord 2010 4 1)) (dl_date (ymd2ord 2010 12 31))) Sample.market
    = inr first /\
    returns (fetch_single_quity_adjustments parse_ymd "600000"
               (dl_date (ymd2ord 2010 12 31 + 1)%Z) (dl_date (ymd2ord 2018 4 16)))
            Sample.market
    = inr second /\
    (forall row, In row (records whole) <->
                 In row (records first) \/ In row (records second)) /\
    List.length (records whole)
    = (List.length (records first) + List.length (records second))%nat.
Proof.
  split; [vm_compute; discriminate |].
  split; [vm_compute; discriminate |].
  split; [reflexivity |].
  split; [vm_compute; discriminate |].
  apply (fetch_single_quity_adjustments_splits_range parse_ymd "600000"
           (ymd2ord 2010 4 1) (ymd2ord 2010 12 31) (ymd2ord 2018 4 16) Sample.market).
  - vm_compute. discriminate.
  - vm_compute. discriminate.
  - reflexivity.
  - vm_compute. discriminate.
Defined.

(** *** gen_asset_metadata *)

Lemma traverse_raises A B (f : A -> result B) e l :
  (forall x, In x l -> (exists y, f x = inr y) \/ f x = inl e) ->
  (exists x, In x l /\ f x = inl e) ->
  traverse f l = inl e.
Proof.
  induction l as [| a l IH]; intros Hall [x [Hx Hfx]]; [destruct Hx |].
  cbn [traverse]. destruct (Hall a (or_introl eq_refl)) as [[y Hy] | Ha].
  - rewrite Hy. cbn [rbind].
    destruct Hx as [-> | Hx]; [rewrite Hy in Hfx; discriminate Hfx |].
    rewrite IH; [reflexivity | | exists x; auto].
    intros z Hz. apply Hall. right. exact Hz.
  - rewrite Ha. reflexivity.
Qed.

Lemma bind_raise A B (m : M A) (k : A -> M B) b tr e tr1 :
  m b tr = (inl e, tr1) -> bind m k b tr = (inl e, tr1).
Proof. intro H. unfold bind. rewrite H. reflexivity. Qed.

Lemma asset_query_lengths b r : In r (asset_query b) -> List.length r = 4%nat.
Proof.
  intro Hr. destruct (asset_query_row b r Hr) as [code [name [first [last [-> _]]]]].
  reflexivity.
Qed.

Lemma asset_query_empty b : StockDaily_rows (tables b) = [] -> asset_query b = [].
Proof. intro H. unfold asset_query, group_by. rewrite H. reflexivity. Qed.

(** X10: on a store without daily bars [gen_asset_metadata] raises the
    [ValueError] of naming four columns on a frame without columns; it has
    then sent its first query only, Issue and SpecialTreatment are never
    read, and its session is rolled back and released. *)
Theorem gen_asset_metadata_raises_without_bars b tr :
  StockDaily_rows (tables b) = [] ->
  gen_asset_metadata b tr =
  (inl (ValueError_length_mismatch 0 4),
   tr ++ [Acquire; Select T_StockDaily; Rollback; Release]).
Proof.
  intro Hnone. unfold gen_asset_metadata, session_scope.
  rewrite bind_all. cbv beta zeta. rewrite (asset_query_empty b Hnone).
  cbn. rewrite <- !app_assoc. reflexivity.
Qed.

Lemma gen_asset_metadata_raises_without_bars_witness :
  StockDaily_rows (tables Sample.closed_market) = [] /\
  gen_asset_metadata Sample.closed_market [] =
  (inl (ValueError_length_mismatch 0 4), [Acquire; Select T_StockDaily; Rollback; Release]).
Proof.
  split; [reflexivity |].
  exact (gen_asset_metadata_raises_without_bars Sample.closed_market [] eq_refl).
Defined.

(** X11: when some daily bar has an empty symbol, [gen_asset_metadata]
    raises the [IndexError] of [get_exchange] while it derives the exchange
    column: before it reads Issue or SpecialTreatment, and with its session
    rolled back and released. *)
Theorem gen_asset_metadata_raises_on_blank_symbol b tr :
  (exists r, In r (StockDaily_rows (tables b)) /\ SD_code r = EmptyString) ->
  gen_asset_metadata b tr =
  (inl IndexError, tr ++ [Acquire; Select T_StockDaily; Rollback; Release]).
Proof.
  intros [r [Hr Hblank]].
  assert (Hbars : StockDaily_rows (tables b) <> []).
  { intro Hnil. rewrite Hnil in Hr. destruct Hr. }
  unfold gen_asset_metadata, session_scope.
  rewrite bind_all. cbv beta zeta.
  rewrite set_columns_from_records_ok;
    [| apply asset_query_nonempty; exact Hbars
     | intros x Hx; exact (asset_query_lengths b x Hx)].
  rewrite bind_lift_ok.
  rewrite (get_column_at _ "symbol" 0) by reflexivity.
  rewrite bind_lift_ok. cbn [records]. unfold series_map.
  rewrite (traverse_raises _ _ map_get_exchange IndexError).
  - rewrite bind_lift_raise. rewrite <- !app_assoc. reflexivity.
  - intros x Hx. rewrite asset_query_keys in Hx. apply in_map_iff in Hx.
    destruct Hx as [k [<- _]]. unfold map_get_exchange, get_exchange.
    destruct k as [| c rest]; [right; reflexivity |].
    left. destruct (Ascii.eqb c "0" || Ascii.eqb c "3")%bool; eexists; reflexivity.
  - exists (c_str EmptyString). split; [| reflexivity].
    rewrite asset_query_keys. apply in_map. apply distinct_codes_In. rewrite <- Hblank.
    apply in_map. exact Hr.
Qed.

Lemma gen_asset_metadata_raises_on_blank_symbol_witness :
  (exists r, In r (StockDaily_rows (tables Sample.blank_symbol_market)) /\
             SD_code r = EmptyString) /\
  gen_asset_metadata Sample.blank_symbol_market [] =
  (inl IndexError, [Acquire; Select T_StockDaily; Rollback; Release]).
Proof.
  assert (H : exists r, In r (StockDaily_rows (tables Sample.blank_symbol_market)) /\
                        SD_code r = EmptyString).
  { exists (Sample.bar EmptyString (ymd2ord 2018 4 17) "blank" 1 1 1 1 1 0).
    split; [vm_compute; tauto | reflexivity]. }
  split; [exact H |].
  exact (gen_asset_metadata_raises_on_blank_symbol Sample.blank_symbol_market [] H).
Defined.

Lemma exchange_column_total b :
  (forall r, In r (StockDaily_rows (tables b)) -> SD_code r <> EmptyString) ->
  exists exchange,
    traverse map_get_exchange (map (fun r => nth 0 r c_null) (asset_query b)) = inr exchange /\
    List.length exchange = List.length (asset_query b).
Proof.
  intro Hcodes.
  destruct (traverse_total _ _ map_get_exchange
              (map (fun r => nth 0 r c_null) (asset_query b))) as [exchange [Hex Hlen]].
  - intros x Hx. rewrite asset_query_keys in Hx. apply in_map_iff in Hx.
    destruct Hx as [k [<- Hk]]. apply distinct_codes_In, in_map_iff in Hk.
    destruct Hk as [r [<- Hr]]. specialize (Hcodes r Hr).
    unfold map_get_exchange, get_exchange.
    destruct (SD_code r) as [| c rest]; [congruence |].
    destruct (Ascii.eqb c "0" || Ascii.eqb c "3")%bool; eexists; reflexivity.
  - exists exchange. rewrite length_map in Hlen. split; assumption.
Qed.

(** What is left of [gen_asset_metadata] once the exchange column is
    derived. *)
Lemma gen_asset_metadata_after_exchange b tr exchange :
  StockDaily_rows (tables b) <> [] ->
  traverse map_get_exchange (map (fun r => nth 0 r c_null) (asset_query b)) = inr exchange ->
  gen_asset_metadata b tr =
  match
    (auto_close_date <-
       lift (traverse add_one_day
               (map (fun r => nth 3 r c_null)
                    (map (fun rv => fst rv ++ [snd rv])
                         (combine (asset_query b) exchange)))) ;;
     start_dates <- get_start_dates ;;
     end_dates <- get_end_dates ;;
     merged <-
       lift (merge_left
               {| columns := map L_name ["symbol"; "asset_name"; "first_traded";
                                         "last_traded"; "exchange"; "auto_close_date"];
                  records :=
                    map (fun rv => fst rv ++ [snd rv])
                        (combine (map (fun rv => fst rv ++ [snd rv])
                                      (combine (asset_query b) exchange))
                                 auto_close_date) |}
               start_dates "symbol") ;;
     lift (merge_left merged end_dates "symbol"))
      b (tr ++ [Acquire; Select T_StockDaily])
  with
  | (inr a, tr') => (inr a, tr' ++ [Commit; Release])
  | (inl e, tr') => (inl e, tr' ++ [Rollback; Release])
  end.
Proof.
  intros Hbars Hex. unfold gen_asset_metadata, session_scope.
  rewrite bind_all. cbv beta zeta.
  rewrite set_columns_from_records_ok;
    [| apply asset_query_nonempty; exact Hbars
     | intros x Hx; exact (asset_query_lengths b x Hx)].
  rewrite bind_lift_ok.
  rewrite (get_column_at _ "symbol" 0) by reflexivity.
  rewrite bind_lift_ok. cbn [records]. unfold series_map. rewrite Hex, bind_lift_ok.
  rewrite <- app_assoc. reflexivity.
Qed.

(** The last bar of a symbol, as a row of the frame that holds the exchange
    column. *)
Lemma exchange_rows_hold_last_bar b exchange r :
  List.length exchange = List.length (asset_query b) ->
  In r (StockDaily_rows (tables b)) ->
  exists row last,
    In row (map (fun rv => fst rv ++ [snd rv]) (combine (asset_query b) exchange)) /\
    nth 3 row c_null = c_date last /\ (SD_date r <= last)%Z.
Proof.
  intros Hlen Hr.
  assert (Hk : In (SD_code r) (distinct_codes SD_code (StockDaily_rows (tables b)))).
  { apply distinct_codes_In, in_map. exact Hr. }
  assert (Hrow : exists x, In x (asset_query b) /\ nth 0 x c_null = c_str (SD_code r)).
  { assert (H : In (c_str (SD_code r)) (map (fun x => nth 0 x c_null) (asset_query b))).
    { rewrite asset_query_keys. apply in_map. exact Hk. }
    apply in_map_iff in H. destruct H as [x [Hx Hin]]. exists x. auto. }
  destruct Hrow as [x [Hx Hkey]].
  destruct (asset_query_row b x Hx) as [code [name [first [last [-> [_ [_ Hmax]]]]]]].
  cbn [nth] in Hkey. inversion Hkey. subst code.
  apply func_max_spec in Hmax. destruct Hmax as [_ Hub].
  assert (Hy : exists y, In ([c_str (SD_code r); name; c_date first; c_date last], y)
                            (combine (asset_query b) exchange)).
  { clear - Hx Hlen. revert exchange Hlen.
    induction (asset_query b) as [| a l IH]; intros ys Hlen; [destruct Hx |].
    destruct ys as [| y ys]; [discriminate Hlen |].
    destruct Hx as [-> | Hx].
    - exists y. left. reflexivity.
    - destruct (IH Hx ys) as [y' Hy']; [cbn in Hlen; lia |]. exists y'. right. exact Hy'. }
  destruct Hy as [y Hy].
  exists ([c_str (SD_code r); name; c_date first; c_date last] ++ [y]), last.
  split; [| split; [reflexivity |]].
  - apply in_map_iff. exists ([c_str (SD_code r); name; c_date first; c_date last], y).
    split; [reflexivity | exact Hy].
  - apply Hub. apply in_map. apply bars_of_In. auto.
Qed.

(** X12: when no symbol is empty and some daily bar is dated [date.max],
    [gen_asset_metadata] raises the [OverflowError] of adding one day to that
    date while it derives auto_close_date: before it reads Issue or
    SpecialTreatment, and with its session rolled back and released. *)
Theorem gen_asset_metadata_raises_on_last_day b tr :
  (forall r, In r (StockDaily_rows (tables b)) -> SD_code r <> EmptyString) ->
  (exists r, In r (StockDaily_rows (tables b)) /\ (MAXORDINAL <= SD_date r)%Z) ->
  gen_asset_metadata b tr =
  (inl OverflowError, tr ++ [Acquire; Select T_StockDaily; Rollback; Release]).
Proof.
  intros Hcodes [r [Hr Hmax]].
  assert (Hbars : StockDaily_rows (tables b) <> []).
  { intro Hnil. rewrite Hnil in Hr. destruct Hr. }
  destruct (exchange_column_total b Hcodes) as [exchange [Hex Hlen]].
  rewrite (gen_asset_metadata_after_exchange b tr exchange Hbars Hex).
  rewrite (traverse_raises _ _ add_one_day OverflowError).
  - rewrite bind_lift_raise. rewrite <- app_assoc. reflexivity.
  - intros x Hx. apply in_map_iff in Hx. destruct Hx as [r2 [<- Hr2]].
    apply in_map_iff in Hr2. destruct Hr2 as [[x e] [<- Hxe]].
    apply in_combine_l in Hxe.
    destruct (asset_query_row b x Hxe) as [code [name [first [last [-> _]]]]].
    cbn [fst snd app nth]. unfold add_one_day, date_add_day.
    destruct (last + 1 <=? MAXORDINAL)%Z; [left; eexists; reflexivity | right; reflexivity].
  - destruct (exchange_rows_hold_last_bar b exchange r Hlen Hr) as [row [last [Hrow [Hnth Hle]]]].
    exists (c_date last). split.
    + rewrite <- Hnth. apply in_map_iff. exists row. split; [reflexivity | exact Hrow].
    + unfold add_one_day, date_add_day.
      destruct (last + 1 <=? MAXORDINAL)%Z eqn:Hb; [| reflexivity].
      apply Z.leb_le in Hb. lia.
Qed.

Lemma gen_asset_metadata_raises_on_last_day_witness :
  (forall r, In r (StockDaily_rows (tables Sample.sentinel_market)) ->
             SD_code r <> EmptyString) /\
  (exists r, In r (StockDaily_rows (tables Sample.sentinel_market)) /\
             (MAXORDINAL <= SD_date r)%Z) /\
  gen_asset_metadata Sample.sentinel_market [] =
  (inl OverflowError, [Acquire; Select T_StockDaily; Rollback; Release]).
Proof.
  assert (H1 : forall r, In r (StockDaily_rows (tables Sample.sentinel_market)) ->
                         SD_code r <> EmptyString).
  { intros r Hr. cbn in Hr.
    repeat (destruct Hr as [<- | Hr]; [discriminate |]). destruct Hr. }
  assert (H2 : exists r, In r (StockDaily_rows (tables Sample.sentinel_market)) /\
                         (MAXORDINAL <= SD_date r)%Z).
  { exists (Sample.bar "600000" MAXORDINAL "name6" 1 1 1 1 1 0).
    split; [vm_compute; tauto | vm_compute; discriminate]. }
  split; [exact H1 | split; [exact H2 |]].
  exact (gen_asset_metadata_raises_on_last_day Sample.sentinel_market [] H1 H2).
Defined.

Lemma auto_close_column_total b exchange :
  (forall r, In r (StockDaily_rows (tables b)) -> (SD_date r < MAXORDINAL)%Z) ->
  exists auto_close,
    traverse add_one_day
             (map (fun r => nth 3 r c_null)
                  (map (fun rv => fst rv ++ [snd rv]) (combine (asset_query b) exchange)))
    = inr auto_close.
Proof.
  intro Hdates.
  destruct (traverse_total _ _ add_one_day
              (map (fun r => nth 3 r c_null)
                   (map (fun rv => fst rv ++ [snd rv]) (combine (asset_query b) exchange))))
    as [auto_close [Hauto _]]; [| exists auto_close; exact Hauto].
  intros x Hx. apply in_map_iff in Hx. destruct Hx as [r2 [<- Hr2]].
  apply in_map_iff in Hr2. destruct Hr2 as [[x e] [<- Hxe]].
  apply in_combine_l in Hxe.
  destruct (asset_query_row b x Hxe) as [code [name [first [last [-> [_ [_ Hmax]]]]]]].
  apply func_max_spec in Hmax. destruct Hmax as [Hin _].
  apply in_map_iff in Hin. destruct Hin as [bar [Hd Hbar]].
  apply bars_of_In in Hbar. destruct Hbar as [Hbar _]. specialize (Hdates bar Hbar).
  cbn [fst snd app nth]. unfold add_one_day, date_add_day.
  destruct (last + 1 <=? MAXORDINAL)%Z eqn:Hle; [eexists; reflexivity |].
  apply Z.leb_gt in Hle. lia.
Qed.

(** X13: the two joins are left joins, yet [gen_asset_metadata] needs rows
    on their right-hand sides: on a store with well-formed daily bars it
    raises the [ValueError] of [get_start_dates] when no Issue row has a
    listing date, before SpecialTreatment is read, and the one of
    [get_end_dates] when no group passes the HAVING clause; the inner and
    the outer session are both rolled back and released. *)
Theorem gen_asset_metadata_raises_without_join_rows b tr :
  StockDaily_rows (tables b) <> [] ->
  (forall r, In r (StockDaily_rows (tables b)) ->
             SD_code r <> EmptyString /\ (SD_date r < MAXORDINAL)%Z) ->
  ((forall r, In r (Issue_rows (tables b)) -> Issue_A004 r = None) ->
   gen_asset_metadata b tr =
   (inl (ValueError_length_mismatch 0 2),
    tr ++ [Acquire; Select T_StockDaily;
           Acquire; Select T_Issue; Rollback; Release;
           Rollback; Release])) /\
  ((exists r, In r (Issue_rows (tables b)) /\ Issue_A004 r <> None) ->
   (forall s, ~ passes_having b s) ->
   gen_asset_metadata b tr =
   (inl (ValueError_length_mismatch 0 2),
    tr ++ [Acquire; Select T_StockDaily;
           Acquire; Select T_Issue; Commit; Release;
           Acquire; Select T_SpecialTreatment; Rollback; Release;
           Rollback; Release])).
Proof.
  intros Hbars Hwf.
  destruct (exchange_column_total b (fun r Hr => proj1 (Hwf r Hr))) as [exchange [Hex _]].
  destruct (auto_close_column_total b exchange (fun r Hr => proj2 (Hwf r Hr)))
    as [auto_close Hauto].
  rewrite (gen_asset_metadata_after_exchange b tr exchange Hbars Hex).
  rewrite Hauto, bind_lift_ok.
  split.
  - intro Hnone.
    assert (Hq : start_dates_query b = []).
    { destruct (start_dates_query b) as [| x xs] eqn:Hq; [reflexivity |].
      assert (Hx : In x (start_dates_query b)) by (rewrite Hq; left; reflexivity).
      destruct (start_dates_query_row b x Hx) as [s [d ->]].
      apply start_dates_query_In in Hx. destruct Hx as [r [Hr [_ Hd]]].
      rewrite (Hnone r Hr) in Hd. discriminate Hd. }
    erewrite bind_raise; [| rewrite get_start_dates_run, Hq; reflexivity].
    rewrite <- !app_assoc. reflexivity.
  - intros [r [Hr Hlisted]] Hnone.
    assert (Hq : start_dates_query b <> []).
    { intro Hnil.
      assert (Hin : In [c_str (Issue_code r); of_date (Issue_A004 r)] (start_dates_query b)).
      { unfold start_dates_query. apply in_map_iff. exists r. split; [reflexivity |].
        apply filter_In. split; [exact Hr |].
        destruct (Issue_A004 r); [reflexivity | congruence]. }
      rewrite Hnil in Hin. destruct Hin. }
    assert (He : end_dates_query b = []).
    { destruct (end_dates_query b) as [| x xs] eqn:He; [reflexivity |].
      assert (Hx : In x (end_dates_query b)) by (rewrite He; left; reflexivity).
      apply end_dates_query_In in Hx. destruct Hx as [s [d [_ [Hpass _]]]].
      destruct (Hnone s Hpass). }
    assert (Hsd : forall t, get_start_dates b t =
                    (inr {| columns := [L_name "symbol"; L_name "start_date"];
                            records := start_dates_query b |},
                     t ++ [Acquire; Select T_Issue; Commit; Release])).
    { intro t. rewrite get_start_dates_run.
      destruct (start_dates_query b); [congruence | reflexivity]. }
    rewrite (bind_ok _ _ get_start_dates _ _ _ _ _ (Hsd _)).
    erewrite bind_raise; [| rewrite get_end_dates_run, He; reflexivity].
    rewrite <- !app_assoc. reflexivity.
Qed.

Lemma gen_asset_metadata_raises_without_join_rows_witness :
  StockDaily_rows (tables Sample.unlisted_market) <> [] /\
  (forall r, In r (StockDaily_rows (tables Sample.unlisted_market)) ->
             SD_code r <> EmptyString /\ (SD_date r < MAXORDINAL)%Z) /\
  (forall r, In r (Issue_rows (tables Sample.unlisted_market)) -> Issue_A004 r = None) /\
  gen_asset_metadata Sample.unlisted_market [] =
  (inl (ValueError_length_mismatch 0 2),
   [Acquire; Select T_StockDaily;
    Acquire; Select T_Issue; Rollback; Release;
    Rollback; Release]).
Proof.
  assert (H1 : StockDaily_rows (tables Sample.unlisted_market) <> []) by discriminate.
  assert (H2 : forall r, In r (StockDaily_rows (tables Sample.unlisted_market)) ->
                         SD_code r <> EmptyString /\ (SD_date r < MAXORDINAL)%Z).
  { intros r Hr. cbn in Hr.
    repeat (destruct Hr as [<- | Hr]; [split; [discriminate | reflexivity] |]).
    destruct Hr. }
  assert (H3 : forall r, In r (Issue_rows (tables Sample.unlisted_market)) ->
                         Issue_A004 r = None).
  { intros r [<- | []]. reflexivity. }
  split; [exact H1 | split; [exact H2 | split; [exact H3 |]]].
  exact (proj1 (gen_asset_metadata_raises_without_join_rows Sample.unlisted_market []
                  H1 H2) H3).
Defined.

Lemma gen_asset_metadata_trace b tr df tr' :
  gen_asset_metadata b tr = (inr df, tr') ->
  tr' = tr ++ [Acquire; Select T_StockDaily;
               Acquire; Select T_Issue; Commit; Release;
               Acquire; Select T_SpecialTreatment; Commit; Release;
               Commit; Release].
Proof.
  intro H. unfold gen_asset_metadata in H.
  apply session_scope_inr in H. destruct H as [tr1 [H ->]].
  rewrite bind_all in H. cbv beta zeta in H.
  invert_bind H df1 H1.
  invert_bind H symbol H2.
  invert_bind H exchange H3. cbv beta zeta in H.
  invert_bind H last_traded H4.
  invert_bind H auto_close H5. cbv beta zeta in H.
  invert_bind H start_dates H6.
  invert_bind H end_dates H7.
  invert_bind H merged H8.
  apply lift_inr in H. destruct H as [_ ->].
  rewrite get_start_dates_run in H6.
  destruct (start_dates_query b); [discriminate H6 |]. inversion H6. subst.
  rewrite get_end_dates_run in H7.
  destruct (end_dates_query b); [discriminate H7 |]. inversion H7. subst.
  repeat rewrite <- app_assoc. reflexivity.
Qed.

(** X14: whenever [gen_asset_metadata] returns a table it has read
    StockDaily, then Issue, then SpecialTreatment, each once; the sessions
    of [get_start_dates] and of [get_end_dates] were opened and released
    one after the other inside its own session, and all three were
    committed. *)
Theorem gen_asset_metadata_nests_its_sessions b df :
  returns gen_asset_metadata b = inr df ->
  log gen_asset_metadata b =
  [Acquire; Select T_StockDaily;
   Acquire; Select T_Issue; Commit; Release;
   Acquire; Select T_SpecialTreatment; Commit; Release;
   Commit; Release].
Proof.
  intro Hret. apply returns_inr in Hret. destruct Hret as [tr H].
  unfold log. rewrite H. exact (gen_asset_metadata_trace b [] df tr H).
Qed.

Lemma gen_asset_metadata_nests_its_sessions_witness :
  returns gen_asset_metadata Sample.market = inr Sample.market_metadata /\
  log gen_asset_metadata Sample.market =
  [Acquire; Select T_StockDaily;
   Acquire; Select T_Issue; Commit; Release;
   Acquire; Select T_SpecialTreatment; Commit; Release;
   Commit; Release].
Proof.
  split; [vm_compute; reflexivity |].
  apply (gen_asset_metadata_nests_its_sessions Sample.market Sample.market_metadata).
  vm_compute. reflexivity.
Defined.

Lemma fold_left_min_spec ds : forall a,
  let m := fold_left Z.min ds a in
  (m = a \/ In m ds) /\ (m <= a)%Z /\ forall x, In x ds -> (m <= x)%Z.
Proof.
  induction ds as [| d ds IH]; intro a; cbn.
  - split; [left; reflexivity | split; [lia | intros x []]].
  - destruct (IH (Z.min a d)) as [Hin [Hle Hlb]].
    split; [| split].
    + destruct Hin as [Heq | Hin]; [| right; right; exact Hin].
      rewrite Heq. destruct (Z.min_spec a d) as [[_ ->] | [_ ->]]; auto.
    + lia.
    + intros x [<- | Hx]; [lia | apply Hlb; exact Hx].
Qed.

(** [func.min] is the least date of a group. *)
Lemma func_min_spec ds d :
  func_min ds = Some d -> In d ds /\ forall x, In x ds -> (d <= x)%Z.
Proof.
  unfold func_min, agg. destruct ds as [| a ds]; [discriminate |].
  pose proof (fold_left_min_spec ds a) as H. cbv zeta in H.
  destruct H as [Hin [Hle Hlb]]. intro Heq. inversion Heq. subst d. split.
  - destruct Hin as [-> | Hin]; [left; reflexivity | right; exact Hin].
  - intros x [<- | Hx]; [exact Hle | apply Hlb; exact Hx].
Qed.

(** X15: in every row that [gen_asset_metadata] returns, first_traded and
    last_traded are dates of bars of the row's symbol and every bar of the
    symbol is dated between them: they are the earliest and the latest bar
    date of the symbol. *)
Theorem first_and_last_traded_span_the_bars b df :
  returns gen_asset_metadata b = inr df ->
  forall row, In row (records df) ->
    exists code first last,
      cell_of df row "symbol" = Some (c_str code) /\
      cell_of df row "first_traded" = Some (c_date first) /\
      cell_of df row "last_traded" = Some (c_date last) /\
      (exists r, In r (StockDaily_rows (tables b)) /\ SD_code r = code /\
                 SD_date r = first) /\
      (exists r, In r (StockDaily_rows (tables b)) /\ SD_code r = code /\
                 SD_date r = last) /\
      (forall r, In r (StockDaily_rows (tables b)) -> SD_code r = code ->
                 (first <= SD_date r <= last)%Z).
Proof.
  intros Hret row Hrow.
  destruct (gen_asset_metadata_returns_rows b df Hret) as [Hcols Hrows].
  destruct (Hrows row Hrow) as [code [l [x [y [Hasset [-> _]]]]]].
  destruct Hasset as [name [first [last [e [-> [_ [Hmin [Hmax _]]]]]]]].
  apply func_min_spec in Hmin. destruct Hmin as [Hfirst Hlb].
  apply func_max_spec in Hmax. destruct Hmax as [Hlast Hub].
  apply in_map_iff in Hfirst. destruct Hfirst as [r1 [Hd1 Hr1]].
  apply in_map_iff in Hlast. destruct Hlast as [r2 [Hd2 Hr2]].
  apply bars_of_In in Hr1, Hr2.
  exists code, first, last. unfold cell_of. rewrite Hcols.
  split; [reflexivity | split; [reflexivity | split; [reflexivity |]]].
  split; [exists r1; tauto | split; [exists r2; tauto |]].
  intros r Hr Hcode.
  assert (Hin : In (SD_date r) (map SD_date (bars_of b code))).
  { apply in_map. apply bars_of_In. auto. }
  split; [apply Hlb | apply Hub]; exact Hin.
Qed.

Lemma first_and_last_traded_span_the_bars_witness :
  returns gen_asset_metadata Sample.market = inr Sample.market_metadata /\
  In Sample.row_000003 (records Sample.market_metadata) /\
  exists code first last,
    cell_of Sample.market_metadata Sample.row_000003 "symbol" = Some (c_str code) /\
    cell_of Sample.market_metadata Sample.row_000003 "first_traded"
    = Some (c_date first) /\
    cell_of Sample.market_metadata Sample.row_000003 "last_traded" = Some (c_date last) /\
    (exists r, In r (StockDaily_rows (tables Sample.market)) /\ SD_code r = code /\
               SD_date r = first) /\
    (exists r, In r (StockDaily_rows (tables Sample.market)) /\ SD_code r = code /\
               SD_date r = last) /\
    (forall r, In r (StockDaily_rows (tables Sample.market)) -> SD_code r = code ->
               (first <= SD_date r <= last)%Z).
Proof.
  split; [vm_compute; reflexivity | split; [vm_compute; tauto |]].
  apply (first_and_last_traded_span_the_bars Sample.market Sample.market_metadata).
  - vm_compute. reflexivity.
  - vm_compute. tauto.
Defined.

(** X16: in every row that [gen_asset_metadata] returns, start_date is a
    listing date that Issue holds for the row's symbol, and it is missing
    exactly when Issue holds no listing date for the symbol. *)
Theorem start_date_is_a_listing_date_of_the_symbol b df :
  returns gen_asset_metadata b = inr df ->
  forall row, In row (records df) ->
    exists code x,
      cell_of df row "symbol" = Some (c_str code) /\
      cell_of df row "start_date" = Some x /\
      ((x = c_null /\
        forall r, In r (Issue_rows (tables b)) -> Issue_code r = code ->
                  Issue_A004 r = None) \/
       (exists d, x = c_date d /\
                  exists r, In r (Issue_rows (tables b)) /\ Issue_code r = code /\
                            Issue_A004 r = Some d)).
Proof.
  intros Hret row Hrow.
  destruct (gen_asset_metadata_returns_rows b df Hret) as [Hcols Hrows].
  destruct (Hrows row Hrow) as [code [l [x [y [Hasset [-> [Hstart _]]]]]]].
  destruct Hasset as [name [first [last [e [-> _]]]]].
  exists code, x. unfold cell_of. rewrite Hcols.
  split; [reflexivity | split; [reflexivity | exact Hstart]].
Qed.

Lemma start_date_is_a_listing_date_of_the_symbol_witness :
  returns gen_asset_metadata Sample.market = inr Sample.market_metadata /\
  In Sample.row_000003 (records Sample.market_metadata) /\
  exists code x,
    cell_of Sample.market_metadata Sample.row_000003 "symbol" = Some (c_str code) /\
    cell_of Sample.market_metadata Sample.row_000003 "start_date" = Some x /\
    ((x = c_null /\
      forall r, In r (Issue_rows (tables Sample.market)) -> Issue_code r = code ->
                Issue_A004 r = None) \/
     (exists d, x = c_date d /\
                exists r, In r (Issue_rows (tables Sample.market)) /\ Issue_code r = code /\
                          Issue_A004 r = Some d)).
Proof.
  split; [vm_compute; reflexivity | split; [vm_compute; tauto |]].
  apply (start_date_is_a_listing_date_of_the_symbol Sample.market Sample.market_metadata).
  - vm_compute. reflexivity.
  - vm_compute. tauto.
Defined.

(** X17: in every row that [gen_asset_metadata] returns, end_date is the
    latest event date of the row's symbol when its group passes the HAVING
    clause of [get_end_dates] and is missing otherwise; in particular it is
    missing for a symbol without any delisting or PT event. *)
Theorem end_date_is_missing_unless_the_group_passes b df :
  returns gen_asset_metadata b = inr df ->
  forall row, In row (records df) ->
    exists code y,
      cell_of df row "symbol" = Some (c_str code) /\
      cell_of df row "end_date" = Some y /\
      ((y = c_null /\ ~ passes_having b code) \/
       (exists d, y = c_date d /\ passes_having b code /\ latest_event_date b code d)) /\
      (~ has_end_event b code -> y = c_null).
Proof.
  intros Hret row Hrow.
  destruct (gen_asset_metadata_returns_rows b df Hret) as [Hcols Hrows].
  destruct (Hrows row Hrow) as [code [l [x [y [Hasset [-> [_ Hend]]]]]]].
  destruct Hasset as [name [first [last [e [-> _]]]]].
  exists code, y. unfold cell_of. rewrite Hcols.
  split; [reflexivity | split; [reflexivity | split; [exact Hend |]]].
  intro Hno. destruct Hend as [[-> _] | [d [_ [Hpass _]]]]; [reflexivity |].
  destruct (Hno (passes_having_has_end_event b code Hpass)).
Qed.

Lemma end_date_is_missing_unless_the_group_passes_witness :
  returns gen_asset_metadata Sample.market = inr Sample.market_metadata /\
  In Sample.row_600000 (records Sample.market_metadata) /\
  exists code y,
    cell_of Sample.market_metadata Sample.row_600000 "symbol" = Some (c_str code) /\
    cell_of Sample.market_metadata Sample.row_600000 "end_date" = Some y /\
    ((y = c_null /\ ~ passes_having Sample.market code) \/
     (exists d, y = c_date d /\ passes_having Sample.market code /\
                latest_event_date Sample.market code d)) /\
    (~ has_end_event Sample.market code -> y = c_null).
Proof.
  split; [vm_compute; reflexivity | split; [vm_compute; tauto |]].
  apply (end_date_is_missing_unless_the_group_passes Sample.market Sample.market_metadata).
  - vm_compute. reflexivity.
  - vm_compute. tauto.
Defined.

(** X18: on a store with daily bars whose symbols are not empty and whose
    dates lie before [date.max], with at least one listing date, at least one
    group passing the HAVING clause and Issue keyed by its code,
    [gen_asset_metadata] returns the eight metadata columns with one row for
    each distinct symbol of the daily bars: no symbol stands in two rows,
    and the symbols of the rows are those of the bars. *)
Theorem gen_asset_metadata_one_row_per_symbol b :
  StockDaily_rows (tables b) <> [] ->
  (forall r, In r (StockDaily_rows (tables b)) ->
             SD_code r <> EmptyString /\ (SD_date r < MAXORDINAL)%Z) ->
  start_dates_query b <> [] ->
  (exists s, passes_having b s) ->
  NoDup (map Issue_code
             (filter (fun r => isnot_None (Issue_A004 r)) (Issue_rows (tables b)))) ->
  exists df,
    returns gen_asset_metadata b = inr df /\
    columns df = [L_name "symbol"; L_name "asset_name"; L_name "first_traded";
                  L_name "last_traded"; L_name "exchange"; L_name "auto_close_date";
                  L_name "start_date"; L_name "end_date"] /\
    NoDup (map (fun row => nth 0 row c_null) (records df)) /\
    (forall x, In x (map (fun row => nth 0 row c_null) (records df)) <->
               exists r, In r (StockDaily_rows (tables b)) /\ x = c_str (SD_code r)).
Proof.
  intros Hbars Hwf Hstart Hpass Hkey.
  destruct (gen_asset_metadata_symbol_column b Hbars Hwf Hstart Hpass Hkey)
    as [df [Hret [Hcols Hsym]]].
  exists df. split; [exact Hret | split; [exact Hcols | rewrite Hsym; split]].
  - apply NoDup_map_inj; [| apply distinct_codes_NoDup].
    intros x y H. inversion H. reflexivity.
  - intro x. rewrite in_map_iff. split.
    + intros [k [<- Hk]]. apply distinct_codes_In, in_map_iff in Hk.
      destruct Hk as [r [<- Hr]]. exists r. auto.
    + intros [r [Hr ->]]. exists (SD_code r). split; [reflexivity |].
      apply distinct_codes_In, in_map. exact Hr.
Qed.

Lemma gen_asset_metadata_one_row_per_symbol_witness :
  StockDaily_rows (tables Sample.market) <> [] /\
  start_dates_query Sample.market <> [] /\
  passes_having Sample.market "000003" /\
  exists df,
    returns gen_asset_metadata Sample.market = inr df /\
    columns df = [L_name "symbol"; L_name "asset_name"; L_name "first_traded";
                  L_name "last_traded"; L_name "exchange"; L_name "auto_close_date";
                  L_name "start_date"; L_name "end_date"] /\
    NoDup (map (fun row => nth 0 row c_null) (records df)) /\
    (forall x, In x (map (fun row => nth 0 row c_null) (records df)) <->
               exists r, In r (StockDaily_rows (tables Sample.market)) /\
                         x = c_str (SD_code r)).
Proof.
  split; [discriminate | split; [discriminate | split; [reflexivity |]]].
  apply (gen_asset_metadata_one_row_per_symbol Sample.market).
  - discriminate.
  - intros r Hr. cbn in Hr.
    repeat (destruct Hr as [<- | Hr]; [split; [discriminate | reflexivity] |]).
    destruct Hr.
  - discriminate.
  - exists "000003". reflexivity.
  - vm_compute. repeat constructor; cbn; intuition discriminate.
Defined.

(** X19: every row that [fetch_single_quity_adjustments] returns comes from
    an Adjustment row of the symbol with an ex-date in the range that was
    read, and holds under each column name the field the query selected for
    it: amount the cash per share, ratio the share ratio, record_date the
    record date, pay_date the ex-rights base date and listing_date the
    listing date of the new shares. *)
Theorem fetch_single_quity_adjustments_names_the_fields parse code start end_ b df :
  returns (fetch_single_quity_adjustments parse code start end_) b = inr df ->
  forall row, In row (records df) ->
    exists s e r,
      to_date parse start = inr (Some s) /\ to_date parse end_ = inr (Some e) /\
      In r (Adjustment_rows (tables b)) /\ ADJ_code r = code /\
      (s <= ADJ_date r <= e)%Z /\
      cell_of df row "symbol" = Some (c_str code) /\
      cell_of df row "date" = Some (c_date (ADJ_date r)) /\
      cell_of df row "amount" = Some (of_num (ADJ_A002 r)) /\
      cell_of df row "ratio" = Some (of_num (ADJ_A003 r)) /\
      cell_of df row "record_date" = Some (of_date (ADJ_A004 r)) /\
      cell_of df row "pay_date" = Some (of_date (ADJ_A005 r)) /\
      cell_of df row "listing_date" = Some (of_date (ADJ_A006 r)).
Proof.
  intros Hret row Hrow.
  destruct (returned_after_reading_dates parse code start end_ b df (or_intror Hret))
    as [s [e [Hs He]]].
  unfold returns in Hret.
  rewrite (fetch_single_quity_adjustments_run parse code start end_ s e b [] Hs He) in Hret.
  cbn [fst] in Hret.
  destruct (adjustment_matching code s e b) as [| r0 rs] eqn:Hm.
  { inversion Hret. subst df. destruct Hrow. }
  inversion Hret. subst df. clear Hret. cbn [records] in Hrow.
  change (In row (map adjustment_tuple (r0 :: rs))) in Hrow. rewrite <- Hm in Hrow.
  apply in_map_iff in Hrow. destruct Hrow as [r [<- Hr]].
  apply adjustment_matching_In in Hr. destruct Hr as [Hr [Hcode Hrange]].
  exists s, e, r. unfold cell_of. cbn [columns]. rewrite <- Hcode.
  repeat (split; [first [reflexivity | assumption] |]). reflexivity.
Qed.

Lemma fetch_single_quity_adjustments_names_the_fields_witness :
  exists df,
    returns (fetch_single_quity_adjustments parse_ymd "600000" (dl_str "2010-4-1")
               (dl_str "2010-12-31")) Sample.market = inr df /\
    forall row, In row (records df) ->
      exists s e r,
        to_date parse_ymd (dl_str "2010-4-1") = inr (Some s) /\
        to_date parse_ymd (dl_str "2010-12-31") = inr (Some e) /\
        In r (Adjustment_rows (tables Sample.market)) /\ ADJ_code r = "600000" /\
        (s <= ADJ_date r <= e)%Z /\
        cell_of df row "symbol" = Some (c_str "600000") /\
        cell_of df row "date" = Some (c_date (ADJ_date r)) /\
        cell_of df row "amount" = Some (of_num (ADJ_A002 r)) /\
        cell_of df row "ratio" = Some (of_num (ADJ_A003 r)) /\
        cell_of df row "record_date" = Some (of_date (ADJ_A004 r)) /\
        cell_of df row "pay_date" = Some (of_date (ADJ_A005 r)) /\
        cell_of df row "listing_date" = Some (of_date (ADJ_A006 r)).
Proof.
  eexists. split; [vm_compute; reflexivity |].
  apply (fetch_single_quity_adjustments_names_the_fields parse_ymd "600000"
           (dl_str "2010-4-1") (dl_str "2010-12-31") Sample.market).
  vm_compute. reflexivity.
Defined.

Lemma traverse_length A B (f : A -> result B) l :
  forall ys, traverse f l = inr ys -> List.length ys = List.length l.
Proof.
  induction l as [| a l IH]; intros ys H.
  - inversion H. reflexivity.
  - cbn in H. destruct (f a) as [e | y]; [discriminate |]. cbn in H.
    destruct (traverse f l) as [e | ys'] eqn:Hl; [discriminate |]. cbn in H.
    inversion H. cbn. rewrite (IH ys' eq_refl). reflexivity.
Qed.

Lemma extended_rows_nonempty (l : list (list cell)) ys :
  List.length ys = List.length l -> l <> [] ->
  map (fun rv => fst rv ++ [snd rv]) (combine l ys) <> [].
Proof.
  intros Hlen Hne. destruct l as [| a l]; [congruence |].
  destruct ys as [| y ys]; [discriminate Hlen | discriminate].
Qed.

Lemma merge_left_nonempty L R on m :
  merge_left L R on = inr m -> records L <> [] -> records m <> [].
Proof.
  unfold merge_left.
  destruct (index_of (L_name on) (columns L)) as [i |]; [| discriminate].
  destruct (index_of (L_name on) (columns R)) as [j |]; [| discriminate].
  intros H Hne. inversion H. subst m. clear H. cbn [records].
  destruct (records L) as [| l ls]; [congruence |]. cbn [flat_map].
  destruct (filter (fun r => cell_eqb (nth i l c_null) (nth j r c_null)) (records R));
    discriminate.
Qed.

(** X20: none of [get_start_dates], [get_end_dates], [fetch_single_equity]
    and [gen_asset_metadata] ever returns a table without rows: where the
    result would have none the call raises, so a table they return always
    has at least one row. *)
Theorem returned_tables_have_rows parse code start end_ b df :
  returns get_start_dates b = inr df \/
  returns get_end_dates b = inr df \/
  returns (fetch_single_equity parse code start end_) b = inr df \/
  returns gen_asset_metadata b = inr df ->
  records df <> [].
Proof.
  intros [H | [H | [H | H]]].
  - rewrite get_start_dates_returns in H.
    destruct (start_dates_query b) eqn:Hq; [discriminate H |].
    inversion H. subst df. cbn [records]. discriminate.
  - rewrite get_end_dates_returns in H.
    destruct (end_dates_query b) eqn:Hq; [discriminate H |].
    inversion H. subst df. cbn [records]. discriminate.
  - destruct (returned_after_reading_dates parse code start end_ b df (or_introl H))
      as [s [e [Hs He]]].
    rewrite (fetch_single_equity_returns parse code start end_ s e b Hs He) in H.
    destruct (daily_matching code s e b) eqn:Hm; [discriminate H |].
    inversion H. subst df. cbn [records]. discriminate.
  - apply returns_inr in H. destruct H as [tr H].
    unfold gen_asset_metadata in H.
    apply session_scope_inr in H. destruct H as [tr1 [H _]].
    rewrite bind_all in H. cbv beta zeta in H.
    invert_bind H df1 H1.
    assert (Hrows : asset_query b <> []).
    { intro Hnil. rewrite Hnil in H1. discriminate H1. }
    apply set_columns_from_records in H1. subst df1.
    invert_bind H symbol H2.
    change (@inr exn _ (map (fun r => nth 0 r c_null) (asset_query b)) = inr symbol) in H2.
    inversion H2. subst symbol. clear H2.
    invert_bind H exchange H3. unfold series_map in H3. cbv beta zeta in H.
    apply traverse_length in H3. rewrite length_map in H3.
    invert_bind H last_traded H4.
    change (@inr exn _ (map (fun r => nth 3 r c_null)
                     (map (fun rv => fst rv ++ [snd rv]) (combine (asset_query b) exchange)))
            = inr last_traded) in H4.
    inversion H4. subst last_traded. clear H4.
    invert_bind H auto_close H5. unfold series_map in H5. cbv beta zeta in H.
    apply traverse_length in H5. rewrite length_map in H5.
    invert_bind H start_dates H6.
    invert_bind H end_dates H7.
    invert_bind H merged H8.
    apply lift_inr in H. destruct H as [H9 _].
    apply (merge_left_nonempty _ _ _ _ H9).
    apply (merge_left_nonempty _ _ _ _ H8).
    apply extended_rows_nonempty; [exact H5 |].
    apply extended_rows_nonempty; [exact H3 | exact Hrows].
Qed.

Lemma returned_tables_have_rows_witness :
  returns gen_asset_metadata Sample.market = inr Sample.market_metadata /\
  records Sample.market_metadata <> [].
Proof.
  split; [vm_compute; reflexivity |].
  apply (returned_tables_have_rows parse_ymd "000333" dl_None dl_None Sample.market).
  right. right. right. vm_compute. reflexivity.
Defined.
